(** * CubeLineMoment: masking and moment extraction for spectral-line cubes

    A shallow embedding of [CubeLineMoment.py]: the baseline channel
    selection and the reference maps of [cubelinemoment_setup], the per-line
    mask construction of [cubelinemoment_multiline], its parameter check and
    the files it writes.

    Arrays are nested lists indexed (channel, y, x), as the numpy arrays of
    the script are.  The arithmetic of the script (numpy on doubles) is kept
    behind the interface [Numeric]; the reductions and coordinate operations
    of the spectral-cube library are kept behind [CubeLibrary].  Everything
    proved inside the generic sections holds for every implementation of
    the two interfaces; the statements that need properties of the real
    exponential are proved for the instance of the interfaces over [R]. *)

From Stdlib Require Import String Ascii DecimalString.
From Stdlib Require Import List ZArith Lia Bool.
From Stdlib Require Import Reals Lra.
Import ListNotations.

Set Implicit Arguments.

(** ** Nested arrays *)

Section Arrays.
Context {A B C : Type}.

(** Elementwise combination of two arrays of the same length. *)
Fixpoint zip_with (f : A -> B -> C) (l : list A) (m : list B) : list C :=
  match l, m with
  | a :: l', b :: m' => f a b :: zip_with f l' m'
  | _, _ => []
  end.

End Arrays.

Section Lookup.
Context {A : Type}.

(** [M[y][x]] of a 2-d array. *)
Definition lookup2 (M : list (list A)) (y x : nat) : option A :=
  match nth_error M y with
  | Some row => nth_error row x
  | None => None
  end.

(** [C[k][y][x]] of a 3-d array. *)
Definition lookup3 (C : list (list (list A))) (k y x : nat) : option A :=
  match nth_error C k with
  | Some plane => lookup2 plane y x
  | None => None
  end.

(** The 2-d array of shape [(ny, nx)] holding [f y x] at [(y, x)]. *)
Definition map_pixels (f : nat -> nat -> A) (ny nx : nat) : list (list A) :=
  map (fun y => map (fun x => f y x) (seq 0 nx)) (seq 0 ny).

(** The spatial shape [(ny, nx)] of a 3-d array, read off its first plane. *)
Definition plane_shape (C : list (list (list A))) : nat * nat :=
  match C with
  | [] => (0, 0)
  | plane :: _ => (length plane, length (hd [] plane))
  end.

End Lookup.

(** Elementwise map over a 2-d array. *)
Definition map2d {A B : Type} (f : A -> B) (M : list (list A))
  : list (list B) :=
  map (map f) M.

Section Broadcast.
Context {A B C : Type}.

(** Elementwise combination of two 2-d arrays. *)
Definition zip2d (f : A -> B -> C) (M : list (list A)) (N : list (list B))
  : list (list C) :=
  zip_with (zip_with f) M N.

(** Elementwise combination of two 3-d arrays. *)
Definition zip3d (f : A -> B -> C) (X : list (list (list A)))
  (Y : list (list (list B))) : list (list (list C)) :=
  zip_with (zip2d f) X Y.

(** A 3-d array against a 2-d array broadcast along the first axis:
    [X op M[None,:,:]]. *)
Definition broadcast_cube_map (f : A -> B -> C) (X : list (list (list A)))
  (M : list (list B)) : list (list (list C)) :=
  map (fun plane => zip2d f plane M) X.

(** A 2-d array against a 1-d array broadcast along the last two axes:
    [M[None,:,:] op a[:,None,None]]. *)
Definition broadcast_map_axis (f : A -> B -> C) (M : list (list A))
  (a : list B) : list (list (list C)) :=
  map (fun v => map2d (fun c => f c v) M) a.

(** A 3-d array against a 1-d array along the first axis:
    [X op a[:,None,None]]. *)
Definition broadcast_cube_axis (f : A -> B -> C) (X : list (list (list A)))
  (a : list B) : list (list (list C)) :=
  zip_with (fun plane v => map2d (fun c => f c v) plane) X a.

End Broadcast.

(** [np.tile(a[:,None,None], (ny, nx))]: each channel value repeated over
    the spatial grid. *)
Definition tile_axis {A : Type} (a : list A) (shape : nat * nat)
  : list (list (list A)) :=
  map (fun v => repeat (repeat v (snd shape)) (fst shape)) a.

(** ** Python slices and the baseline channel mask *)

Local Open Scope Z_scope.

(** A slice bound as Python adjusts it for a sequence of length [n]: a
    negative bound counts from the end, and the result is clamped to
    [0 .. n]. *)
Definition slice_bound (n k : Z) : Z :=
  if k <? 0 then Z.max (k + n) 0 else Z.min k n.

(** [m[start:stop] = True] on adjusted bounds; [i] is the index of the head
    of [m]. *)
Fixpoint assign_true_from (i start stop : Z) (m : list bool) : list bool :=
  match m with
  | [] => []
  | b :: m' =>
      (if (start <=? i) && (i <? stop) then true else b)
        :: assign_true_from (i + 1) start stop m'
  end.

(** [mask[low:high] = True]. *)
Definition slice_assign_true (low high : Z) (m : list bool) : list bool :=
  let n := Z.of_nat (length m) in
  assign_true_from 0 (slice_bound n low) (slice_bound n high) m.

(** The loop of [cubelinemoment_setup] over a baseline list:
<<
    inds = np.arange(cube.shape[0])
    mask = np.zeros_like(inds, dtype='bool')
    for low,high in baseline:
        mask[low:high] = True
>> *)
Definition baseline_mask (nchan : nat) (baseline : list (Z * Z)) : list bool :=
  fold_left (fun m lh => slice_assign_true (fst lh) (snd lh) m)
            baseline (repeat false nchan).

(** Channel [i] lies in the slice [low:high] of [nchan] channels. *)
Definition in_slice (nchan : nat) (low high : Z) (i : nat) : bool :=
  (slice_bound (Z.of_nat nchan) low <=? Z.of_nat i)
  && (Z.of_nat i <? slice_bound (Z.of_nat nchan) high).

(** The channels a baseline list selects, by the slice rule. *)
Definition baseline_selects (nchan : nat) (baseline : list (Z * Z)) (i : nat)
  : bool :=
  existsb (fun lh => in_slice nchan (fst lh) (snd lh) i) baseline.

Local Close Scope Z_scope.

(** ** Interfaces to numpy arithmetic and to the spectral-cube library *)

(** The scalar arithmetic the script applies elementwise.  [nlit] reads an
    integer literal, [nsquare] is [x**2], [ngt] and [nlt] are the
    comparisons [>] and [<]. *)
Class Numeric (num : Type) := {
  nlit : Z -> num;
  nadd : num -> num -> num;
  nsub : num -> num -> num;
  nmul : num -> num -> num;
  ndiv : num -> num -> num;
  nneg : num -> num;
  nabs : num -> num;
  nsquare : num -> num;
  nexp : num -> num;
  nlog : num -> num;
  nsqrt : num -> num;
  ngt : num -> num -> bool;
  nlt : num -> num -> bool
}.

(** A spectral cube: the coordinates of its channels, its data indexed
    (channel, y, x), and its mask ([true] where a voxel is included). *)
Record SpectralCube (num : Type) := mkCube {
  spectral_axis : list num;
  cube_data : list (list (list num));
  cube_mask : list (list (list bool))
}.

(** What the script asks of the spectral-cube library and of astropy
    quantities.  A reduction along the spectral axis is given by its kernel
    on one line of sight, whose excluded voxels are [None]:
    [los_moment order axis spectrum] is [cube.moment(order, axis=0)] at one
    pixel.  [with_spectral_unit rest c] converts the spectral axis of [c]
    to optical velocity about [rest]; [spectral_slab c lo hi] is the slab
    of [c] between two spectral coordinates; [quantity_min] and
    [quantity_max] are [.min()] and [.max()] of a map. *)
Class CubeLibrary (num : Type) := {
  with_spectral_unit : num -> SpectralCube num -> SpectralCube num;
  spectral_slab : SpectralCube num -> num -> num -> SpectralCube num;
  los_max : list (option num) -> num;
  los_argmax : list (option num) -> nat;
  los_std : list (option num) -> num;
  los_moment : nat -> list num -> list (option num) -> num;
  quantity_min : list (list num) -> num;
  quantity_max : list (list num) -> num
}.

(** ** Masked cubes and reductions along the spectral axis *)

Section Cubes.
Context {num : Type} {NU : Numeric num} {LIB : CubeLibrary num}.

(** The value of a voxel, when the cube includes it. *)
Definition voxel (c : SpectralCube num) (k y x : nat) : option num :=
  match lookup3 (cube_mask c) k y x, lookup3 (cube_data c) k y x with
  | Some true, Some d => Some d
  | _, _ => None
  end.

(** The line of sight through pixel [(y, x)]. *)
Definition los (c : SpectralCube num) (y x : nat) : list (option num) :=
  map (fun k => voxel c k y x) (seq 0 (length (cube_data c))).

(** A reduction along axis 0, pixel by pixel. *)
Definition reduce_los {B : Type} (f : list (option num) -> B)
  (c : SpectralCube num) : list (list B) :=
  map_pixels (fun y x => f (los c y x))
             (fst (plane_shape (cube_data c)))
             (snd (plane_shape (cube_data c))).

(** [c.max(axis=0)], [c.argmax(axis=0)], [c.std(axis=0)]. *)
Definition cube_max (c : SpectralCube num) : list (list num) :=
  reduce_los los_max c.

Definition cube_argmax (c : SpectralCube num) : list (list nat) :=
  reduce_los los_argmax c.

Definition cube_std (c : SpectralCube num) : list (list num) :=
  reduce_los los_std c.

(** [c.moment(order=order, axis=0)]. *)
Definition moment (order : nat) (c : SpectralCube num) : list (list num) :=
  reduce_los (los_moment order (spectral_axis c)) c.

(** [c.with_mask(m)] for a mask of the shape of the cube: the new mask is
    the conjunction of the mask of [c] and [m]. *)
Definition with_mask (c : SpectralCube num) (m : list (list (list bool)))
  : SpectralCube num :=
  mkCube (spectral_axis c) (cube_data c) (zip3d andb (cube_mask c) m).

(** [c.with_mask(m[:,None,None])] for a mask over the channels. *)
Definition with_channel_mask (c : SpectralCube num) (m : list bool)
  : SpectralCube num :=
  mkCube (spectral_axis c) (cube_data c)
         (broadcast_cube_axis andb (cube_mask c) m).

(** [c > M] for a map [M]: the comparison of the data of [c] with [M],
    plane by plane. *)
Definition cube_gt (c : SpectralCube num) (M : list (list num))
  : list (list (list bool)) :=
  broadcast_cube_map ngt (cube_data c) M.

(** The noise map over a baseline list:
    [cube.with_mask(mask[:,None,None]).std(axis=0)] with [mask] from the
    loop over the list. *)
Definition baseline_noise (cube : SpectralCube num)
  (baseline : list (Z * Z)) : list (list num) :=
  let mask := baseline_mask (length (cube_data cube)) baseline in
  cube_std (with_channel_mask cube mask).

(** The samples of pixel [(y, x)] that enter the noise estimate over a
    baseline list: the line of sight of the cube under the channel mask. *)
Definition noise_samples (cube : SpectralCube num)
  (baseline : list (Z * Z)) (y x : nat) : list (option num) :=
  los (with_channel_mask cube
         (baseline_mask (length (cube_data cube)) baseline)) y x.

(** ** [cubelinemoment_setup] *)

(** The tuple [cubelinemoment_setup] returns. *)
Record Setup := mkSetup {
  s_cube : SpectralCube num;
  s_spatialmaskcube : SpectralCube num;
  s_spatial_mask : list (list bool);
  s_noisemap : list (list num);
  s_noisemapbright : list (list num);
  s_centroid_map : list (list num);
  s_width_map : list (list num);
  s_max_map : list (list num);
  s_peak_velocity : list (list num)
}.

(** [peak_velocity = brightest_cube.spectral_axis[brightest_cube.argmax(axis=0)]].
    The argmax of a line of sight is a channel of the axis; [nlit 0] only
    fills the result type where an index lies outside it. *)
Definition peak_velocity_map (brightest_cube : SpectralCube num)
  : list (list num) :=
  map2d (fun i => nth i (spectral_axis brightest_cube) (nlit 0))
        (cube_argmax brightest_cube).

(** The slab of the spatial-mask cube about the brightest line: the cube in
    velocity about [brightest_line_frequency], between [vz-linewidth_guess]
    and [vz+linewidth_guess]. *)
Definition brightest_slab (spatialmaskcube : SpectralCube num)
  (vz brightest_line_frequency linewidth_guess : num) : SpectralCube num :=
  let spatialmask_Vcube :=
    with_spectral_unit brightest_line_frequency spatialmaskcube in
  spectral_slab spatialmask_Vcube (nsub vz linewidth_guess)
                (nadd vz linewidth_guess).

(** [cubelinemoment_setup].  [cube] and [spatialmaskcube] are the two cubes
    as read, brought to Hz and cut to their regions (lines 86-99 of the
    script); quantities are numbers in the units the script converts them
    to.  The width map is the square root of moment 2, as the script notes
    beside [linewidth_sigma]. *)
Definition cubelinemoment_setup
  (cube spatialmaskcube : SpectralCube num)
  (vz brightest_line_frequency width_line_frequency linewidth_guess : num)
  (noisemapbright_baseline noisemap_baseline : list (Z * Z))
  (spatial_mask_limit : num) : Setup :=
  let vcube := with_spectral_unit width_line_frequency cube in
  let width_map := map2d nsqrt (moment 2 vcube) in
  let centroid_map := moment 1 vcube in
  let max_map := cube_max cube in
  let brightest_cube :=
    brightest_slab spatialmaskcube vz brightest_line_frequency
                   linewidth_guess in
  let peak_velocity := peak_velocity_map brightest_cube in
  let peak_amplitude := cube_max brightest_cube in
  let noisemapbright := baseline_noise cube noisemapbright_baseline in
  let spatial_mask :=
    zip2d ngt peak_amplitude
          (map2d (nmul spatial_mask_limit) noisemapbright) in
  let noisemap := baseline_noise cube noisemap_baseline in
  mkSetup cube spatialmaskcube spatial_mask noisemap noisemapbright
          centroid_map width_map max_map peak_velocity.

(** ** The masks of [cubelinemoment_multiline] *)

(** The slab cut for one line: the cube in velocity about the line's rest
    frequency, between [peak_velocity.min()-line_width] and
    [peak_velocity.max()+line_width]. *)
Definition line_subcube (cube : SpectralCube num)
  (peak_velocity : list (list num)) (line_freq line_width : num)
  : SpectralCube num :=
  let vcube := with_spectral_unit line_freq cube in
  spectral_slab vcube (nsub (quantity_min peak_velocity) line_width)
                (nadd (quantity_max peak_velocity) line_width).

(** [np.exp(-(centroid_map[None,:,:] - axis[:,None,None])**2 /
            (2*width_map[None,:,:]**2))]. *)
Definition gauss_mask_cube (centroid_map width_map : list (list num))
  (axis : list num) : list (list (list num)) :=
  let diff := broadcast_map_axis nsub centroid_map axis in
  let numer := map (map2d (fun d => nneg (nsquare d))) diff in
  let denom := map2d (fun w => nmul (nlit 2) (nsquare w)) width_map in
  map (map2d nexp) (broadcast_cube_map ndiv numer denom).

(** [threshold = np.exp(-(peak_sn**2) / 2.)] with
    [peak_sn = max_map / noisemap]. *)
Definition threshold_map (max_map noisemap : list (list num))
  : list (list num) :=
  let peak_sn := zip2d ndiv max_map noisemap in
  map2d (fun s => nexp (ndiv (nneg (nsquare s)) (nlit 2))) peak_sn.

(** [width_mask_cube = gauss_mask_cube > threshold]. *)
Definition width_mask_cube (centroid_map width_map max_map noisemap
  : list (list num)) (axis : list num) : list (list (list bool)) :=
  broadcast_cube_map ngt (gauss_mask_cube centroid_map width_map axis)
                     (threshold_map max_map noisemap).

(** [mask = np.abs(peak_velocity - velocities) < line_width] with
    [velocities] the spectral axis tiled over the spatial grid. *)
Definition velocity_mask (peak_velocity : list (list num))
  (subcube : SpectralCube num) (line_width : num)
  : list (list (list bool)) :=
  let velocities :=
    tile_axis (spectral_axis subcube) (plane_shape (cube_data subcube)) in
  map (fun plane =>
         map2d (fun d => nlt (nabs d) line_width)
               (zip2d nsub peak_velocity plane))
      velocities.

(** [signal_mask = subcube > signal_mask_limit*noisemap]. *)
Definition signal_mask (subcube : SpectralCube num)
  (signal_mask_limit : num) (noisemap : list (list num))
  : list (list (list bool)) :=
  cube_gt subcube (map2d (nmul signal_mask_limit) noisemap).

(** The masked subcube of one line:
    [subcube.with_mask(mask & spatial_mask).with_mask(signal_mask)
            .with_mask(width_mask_cube)]. *)
Definition line_msubcube (cube : SpectralCube num)
  (peak_velocity centroid_map max_map noisemap : list (list num))
  (signal_mask_limit : num) (spatial_mask : list (list bool))
  (width_map : list (list num)) (line_freq line_width : num)
  : SpectralCube num :=
  let subcube := line_subcube cube peak_velocity line_freq line_width in
  let width_mask :=
    width_mask_cube centroid_map width_map max_map noisemap
                    (spectral_axis subcube) in
  let mask := velocity_mask peak_velocity subcube line_width in
  let signal := signal_mask subcube signal_mask_limit noisemap in
  with_mask
    (with_mask
       (with_mask subcube (broadcast_cube_map andb mask spatial_mask))
       signal)
    width_mask.

(** ** The four masks, voxel by voxel

    The conditions of the four masks as the comments of the script state
    them, on the entries of the maps at one voxel.  The theorems below relate
    the arrays the script builds to these conditions. *)

(** Pixel [(y, x)] lies on the spatial grid of the cube. *)
Definition on_grid (c : SpectralCube num) (y x : nat) : Prop :=
  y < fst (plane_shape (cube_data c)) /\ x < snd (plane_shape (cube_data c)).

(** The value of the Gaussian of centre [c] and width [w] at velocity [v]. *)
Definition gauss_value (c v w : num) : num :=
  nexp (ndiv (nneg (nsquare (nsub c v))) (nmul (nlit 2) (nsquare w))).

(** The threshold at a pixel of peak [mx] and noise [n]. *)
Definition threshold_value (mx n : num) : num :=
  nexp (ndiv (nneg (nsquare (ndiv mx n))) (nlit 2)).

(** [|peak_velocity - v| < line_width] at channel [k] of the subcube. *)
Definition in_velocity_window (peak_velocity : list (list num))
  (subcube : SpectralCube num) (line_width : num) (k y x : nat) : Prop :=
  exists v pv,
    nth_error (spectral_axis subcube) k = Some v /\
    lookup2 peak_velocity y x = Some pv /\
    on_grid subcube y x /\
    nlt (nabs (nsub pv v)) line_width = true.

(** [peak_amplitude > spatial_mask_limit * noisemapbright] at a pixel. *)
Definition above_spatial_limit (peak_amplitude noisemapbright
  : list (list num)) (spatial_mask_limit : num) (y x : nat) : Prop :=
  exists a nb,
    lookup2 peak_amplitude y x = Some a /\
    lookup2 noisemapbright y x = Some nb /\
    ngt a (nmul spatial_mask_limit nb) = true.

(** [subcube > signal_mask_limit * noisemap] at a voxel. *)
Definition above_signal_limit (subcube : SpectralCube num)
  (signal_mask_limit : num) (noisemap : list (list num)) (k y x : nat)
  : Prop :=
  exists d n,
    lookup3 (cube_data subcube) k y x = Some d /\
    lookup2 noisemap y x = Some n /\
    ngt d (nmul signal_mask_limit n) = true.

(** The Gaussian exceeds the threshold at a voxel. *)
Definition above_gauss_threshold (centroid_map width_map max_map noisemap
  : list (list num)) (axis : list num) (k y x : nat) : Prop :=
  exists v c w mx n,
    nth_error axis k = Some v /\
    lookup2 centroid_map y x = Some c /\
    lookup2 width_map y x = Some w /\
    lookup2 max_map y x = Some mx /\
    lookup2 noisemap y x = Some n /\
    ngt (gauss_value c v w) (threshold_value mx n) = true.

End Cubes.

(** ** Output files and the effects of [cubelinemoment_multiline] *)

(** A file the script writes: a FITS image ([hdu.writeto]) or a PNG preview
    ([FITSFigure.save]) of a map. *)
Inductive Output (num : Type) : Type :=
| FitsFile (path : string) (image : list (list num))
| PngFile (path : string) (image : list (list num)).

Arguments FitsFile {num} path image.
Arguments PngFile {num} path image.

Definition output_path {num : Type} (o : Output num) : string :=
  match o with
  | FitsFile p _ => p
  | PngFile p _ => p
  end.

Definition output_image {num : Type} (o : Output num) : list (list num) :=
  match o with
  | FitsFile _ m => m
  | PngFile _ m => m
  end.


(** The exception the script raises itself. *)
Inductive Error : Type :=
| ValueError (msg : string).

(** A computation that appends to the files written so far and either
    returns or raises. *)
Definition Run (num A : Type) : Type :=
  list (Output num) -> (Error + A) * list (Output num).

Section RunMonad.
Context {num : Type}.

Definition ret {A : Type} (a : A) : Run num A :=
  fun written => (inr a, written).

Definition raise {A : Type} (e : Error) : Run num A :=
  fun written => (inl e, written).

Definition bind {A B : Type} (m : Run num A) (k : A -> Run num B)
  : Run num B :=
  fun written =>
    match m written with
    | (inr a, written') => k a written'
    | (inl e, written') => (inl e, written')
    end.

Definition write (o : Output num) : Run num unit :=
  fun written => (inr tt, written ++ [o]).

(** A [for] loop. *)
Fixpoint for_each {X : Type} (l : list X) (body : X -> Run num unit)
  : Run num unit :=
  match l with
  | [] => ret tt
  | x :: l' => bind (body x) (fun _ => for_each l' body)
  end.

End RunMonad.

Notation "m ;; k" := (bind m (fun _ => k))
  (at level 61, right associativity).

(** [zip] of three lists. *)
Fixpoint zip3 {A B C : Type} (a : list A) (b : list B) (c : list C)
  : list (A * B * C) :=
  match a, b, c with
  | x :: a', y :: b', z :: c' => (x, y, z) :: zip3 a' b' c'
  | _, _, _ => []
  end.

Local Open Scope string_scope.

(** A non-negative integer as [str.format] prints it. *)
Definition str_of_nat (n : nat) : string :=
  NilZero.string_of_uint (Nat.to_uint n).

(** ["moment{0}/{1}_{2}_moment{0}<ext>".format(moment,target,line_name)]. *)
Definition moment_path (moment : nat) (target line_name ext : string)
  : string :=
  "moment" ++ str_of_nat moment ++ "/" ++ target ++ "_" ++ line_name
           ++ "_moment" ++ str_of_nat moment ++ ext.

Definition length_error : Error :=
  ValueError
    "Line lists (central frequency, names, and widths) have different lengths".

Local Close Scope string_scope.

Section Multiline.
Context {num : Type} {NU : Numeric num} {LIB : CubeLibrary num}.

(** The parameter check: the condition under which the script raises. *)
Definition lengths_differ (my_line_list my_line_widths : list num)
  (my_line_names : list string) : bool :=
  negb (length my_line_names =? length my_line_list)
  || negb (length my_line_names =? length my_line_widths).

(** The map written for one moment: the moment of the masked subcube, and
    for moment 2 [np.multiply(2*np.sqrt(np.log(2)), np.sqrt(mom))]. *)
Definition moment_image (order : nat) (msubcube : SpectralCube num)
  : list (list num) :=
  let mom := moment order msubcube in
  if order =? 2
  then map2d (fun m => nmul (nmul (nlit 2) (nsqrt (nlog (nlit 2))))
                            (nsqrt m)) mom
  else mom.

(** The body of the loop [for moment in (0,1,2)]. *)
Definition write_moment (target line_name : string)
  (msubcube : SpectralCube num) (order : nat) : Run num unit :=
  let mom := moment_image order msubcube in
  write (FitsFile (moment_path order target line_name ".fits") mom) ;;
  write (PngFile (moment_path order target line_name ".png") mom).

(** The files one pass of that loop body leaves, and the files of the three
    passes for one line. *)
Definition moment_outputs (target line_name : string)
  (msubcube : SpectralCube num) (order : nat) : list (Output num) :=
  [FitsFile (moment_path order target line_name ".fits")
            (moment_image order msubcube);
   PngFile (moment_path order target line_name ".png")
           (moment_image order msubcube)].

Definition line_outputs (target line_name : string)
  (msubcube : SpectralCube num) : list (Output num) :=
  flat_map (moment_outputs target line_name msubcube) [0; 1; 2].

(** [cubelinemoment_multiline].  What the script prints and the figure it
    draws on screen leave no file and are left out, as are the header
    keywords copied into each FITS image. *)
Definition cubelinemoment_multiline (cube : SpectralCube num)
  (peak_velocity centroid_map max_map noisemap : list (list num))
  (signal_mask_limit spatial_mask_limit : num)
  (my_line_list my_line_widths : list num) (my_line_names : list string)
  (target : string) (spatial_mask : list (list bool))
  (width_map : list (list num)) : Run num unit :=
  if lengths_differ my_line_list my_line_widths my_line_names
  then raise length_error
  else
    for_each (zip3 my_line_names my_line_list my_line_widths)
      (fun line =>
         let '(line_name, line_freq, line_width) := line in
         let msubcube :=
           line_msubcube cube peak_velocity centroid_map max_map noisemap
                         signal_mask_limit spatial_mask width_map
                         line_freq line_width in
         for_each [0; 1; 2] (write_moment target line_name msubcube)).

(** The parameters [main] reads from the parameter file, the two cube files
    given as the cubes they hold. *)
Record Params := mkParams {
  p_cube : SpectralCube num;
  p_spatialmaskcube : SpectralCube num;
  p_vz : num;
  p_target : string;
  p_brightest_line_frequency : num;
  p_width_line_frequency : num;
  p_linewidth_guess : num;
  p_noisemapbright_baseline : list (Z * Z);
  p_noisemap_baseline : list (Z * Z);
  p_spatial_mask_limit : num;
  p_signal_mask_limit : num;
  p_my_line_list : list num;
  p_my_line_widths : list num;
  p_my_line_names : list string
}.

Definition setup_of (p : Params) : Setup :=
  cubelinemoment_setup (p_cube p) (p_spatialmaskcube p) (p_vz p)
    (p_brightest_line_frequency p) (p_width_line_frequency p)
    (p_linewidth_guess p) (p_noisemapbright_baseline p)
    (p_noisemap_baseline p) (p_spatial_mask_limit p).

(** [main]: the setup, then the extraction with the maps of the setup. *)
Definition main (p : Params) : Run num unit :=
  let s := setup_of p in
  cubelinemoment_multiline (s_cube s) (s_peak_velocity s)
    (s_centroid_map s) (s_max_map s) (s_noisemap s)
    (p_signal_mask_limit p) (p_spatial_mask_limit p)
    (p_my_line_list p) (p_my_line_widths p) (p_my_line_names p)
    (p_target p) (s_spatial_mask s) (s_width_map s).


End Multiline.

(** ** The interfaces over the real numbers *)

Local Open Scope R_scope.

(** The comparison [a < b] as a truth value. *)
Definition Rltb (a b : R) : bool :=
  if Rlt_dec a b then true else false.

#[export] Instance R_numeric : Numeric R := {
  nlit := IZR;
  nadd := Rplus;
  nsub := Rminus;
  nmul := Rmult;
  ndiv := Rdiv;
  nneg := Ropp;
  nabs := Rabs;
  nsquare := fun x => x ^ 2;
  nexp := exp;
  nlog := ln;
  nsqrt := sqrt;
  ngt := fun a b => Rltb b a;
  nlt := Rltb
}.

(** The speed of light in km/s. *)
Definition c_kms : R := 299792458 / 1000.

(** Frequency to velocity in the optical convention, about [rest]. *)
Definition optical_velocity (rest f : R) : R :=
  c_kms * (rest - f) / f.

Definition R_with_spectral_unit (rest : R) (c : SpectralCube R)
  : SpectralCube R :=
  mkCube (map (optical_velocity rest) (spectral_axis c))
         (cube_data c) (cube_mask c).

(** The index of the channel closest to the coordinate [x]: [best] is the
    closest channel seen so far, at distance [dist]; [i] is the index of
    the head of [axis]. *)
Fixpoint closest_from (x : R) (best : nat) (dist : R) (i : nat)
  (axis : list R) : nat :=
  match axis with
  | [] => best
  | v :: axis' =>
      if Rltb (Rabs (v - x)) dist
      then closest_from x i (Rabs (v - x)) (S i) axis'
      else closest_from x best dist (S i) axis'
  end.

Definition closest_spectral_channel (axis : list R) (x : R) : nat :=
  match axis with
  | [] => 0%nat
  | v :: axis' => closest_from x 0%nat (Rabs (v - x)) 1%nat axis'
  end.

(** [l[lo:hi]] for indices within the list. *)
Definition slice {A : Type} (lo hi : nat) (l : list A) : list A :=
  firstn (hi - lo) (skipn lo l).

(** The slab between the channels closest to the two coordinates, both
    included. *)
Definition R_spectral_slab (c : SpectralCube R) (lo hi : R)
  : SpectralCube R :=
  let ilo := closest_spectral_channel (spectral_axis c) lo in
  let ihi := closest_spectral_channel (spectral_axis c) hi in
  let first := Nat.min ilo ihi in
  let stop := S (Nat.max ilo ihi) in
  mkCube (slice first stop (spectral_axis c))
         (slice first stop (cube_data c))
         (slice first stop (cube_mask c)).

(** The included values of a line of sight. *)
Fixpoint present {A : Type} (spectrum : list (option A)) : list A :=
  match spectrum with
  | [] => []
  | Some d :: s => d :: present s
  | None :: s => present s
  end.

(** The included values with the coordinates of their channels. *)
Fixpoint present_at {A : Type} (axis : list A) (spectrum : list (option A))
  : list (A * A) :=
  match axis, spectrum with
  | v :: axis', Some d :: s => (v, d) :: present_at axis' s
  | _ :: axis', None :: s => present_at axis' s
  | _, _ => []
  end.

Definition Rsum (l : list R) : R := fold_left Rplus l 0.

Definition R_los_max (spectrum : list (option R)) : R :=
  match present spectrum with
  | [] => 0
  | d :: l => fold_left Rmax l d
  end.

(** The index of the first greatest included value. *)
Fixpoint argmax_from (best : nat) (top : option R) (i : nat)
  (spectrum : list (option R)) : nat :=
  match spectrum with
  | [] => best
  | None :: s => argmax_from best top (S i) s
  | Some d :: s =>
      match top with
      | None => argmax_from i (Some d) (S i) s
      | Some t =>
          if Rltb t d then argmax_from i (Some d) (S i) s
          else argmax_from best top (S i) s
      end
  end.

Definition R_los_argmax (spectrum : list (option R)) : nat :=
  argmax_from 0%nat None 0%nat spectrum.

Definition Rmean (l : list R) : R := Rsum l / INR (length l).

Definition R_los_std (spectrum : list (option R)) : R :=
  let l := present spectrum in
  sqrt (Rmean (map (fun d => (d - Rmean l) ^ 2) l)).

(** The moments of a line of sight: moment 0 is the sum of the included
    intensities times the channel width, moment 1 the intensity-weighted
    mean coordinate, and a higher moment the intensity-weighted mean of
    that power of the offset from moment 1. *)
Definition channel_width (axis : list R) : R :=
  match axis with
  | v0 :: v1 :: _ => Rabs (v1 - v0)
  | _ => 1
  end.

Definition R_los_moment (order : nat) (axis : list R)
  (spectrum : list (option R)) : R :=
  let vd := present_at axis spectrum in
  let total := Rsum (map snd vd) in
  let m1 := Rsum (map (fun p => snd p * fst p) vd) / total in
  match order with
  | 0%nat => total * channel_width axis
  | 1%nat => m1
  | _ => Rsum (map (fun p => snd p * (fst p - m1) ^ order) vd) / total
  end.

Definition R_quantity_min (M : list (list R)) : R :=
  match concat M with
  | [] => 0
  | v :: l => fold_left Rmin l v
  end.

Definition R_quantity_max (M : list (list R)) : R :=
  match concat M with
  | [] => 0
  | v :: l => fold_left Rmax l v
  end.

#[export] Instance R_library : CubeLibrary R := {
  with_spectral_unit := R_with_spectral_unit;
  spectral_slab := R_spectral_slab;
  los_max := R_los_max;
  los_argmax := R_los_argmax;
  los_std := R_los_std;
  los_moment := R_los_moment;
  quantity_min := R_quantity_min;
  quantity_max := R_quantity_max
}.

(** ** Example inputs over the reals *)

(** A cube of two channels and one pixel, at the rest frequency 1 of the
    line and at the frequency whose velocity about the line is 10 km/s;
    both voxels hold the brightness 1. *)
Definition ex_cube : SpectralCube R :=
  mkCube [1; c_kms / (c_kms + 10)] [[[1]]; [[1]]] [[[true]]; [[true]]].

Definition ex_peak_velocity : list (list R) := [[0]].
Definition ex_centroid_map : list (list R) := [[5]].
Definition ex_width_map : list (list R) := [[5]].
Definition ex_max_map : list (list R) := [[1]].
Definition ex_noisemap : list (list R) := [[1 / 10]].
Definition ex_spatial_mask : list (list bool) := [[true]].

(** The masked subcube of the line of rest frequency 1 and width 20 km/s
    on these inputs, and the run for that one line. *)
Definition ex_msubcube : SpectralCube R :=
  line_msubcube ex_cube ex_peak_velocity ex_centroid_map ex_max_map
    ex_noisemap 3 ex_spatial_mask ex_width_map 1 20.


(** A run with two names for one frequency and one width. *)
Definition ex_run_mismatched : Run R unit :=
  cubelinemoment_multiline ex_cube ex_peak_velocity ex_centroid_map
    ex_max_map ex_noisemap 3 3 [1] [20]
    ["H2CO"%string; "C18O"%string] "NGC253"%string ex_spatial_mask
    ex_width_map.

(** A cube of four channels and one pixel, holding the channel number plus
    one. *)
Definition ex_cube4 : SpectralCube R :=
  mkCube [1; 2; 3; 4] [[[1]]; [[2]]; [[3]]; [[4]]]
         [[[true]]; [[true]]; [[true]]; [[true]]].

Local Close Scope R_scope.

(** ** The line lists of the parameter file *)

Section Text.
Local Open Scope string_scope.

(** [s.split(sep)] for a non-empty separator, scanning [s] from the left:
    [piece] is the text read since the last separator, and [skip] counts
    the characters of a separator just found that are still to pass.
    (Python raises on an empty separator; the script passes [", "].) *)
Fixpoint split_from (sep : string) (skip : nat) (piece s : string)
  : list string :=
  match s with
  | EmptyString => [piece]
  | String c s' =>
      match skip with
      | S skip' => split_from sep skip' piece s'
      | O =>
          if prefix sep s
          then piece :: split_from sep (String.length sep - 1) "" s'
          else split_from sep 0 (piece ++ String c "") s'
      end
  end.

Definition str_split (sep s : string) : list string :=
  split_from sep 0 "" s.

(** [sep.join(l)]. *)
Fixpoint str_join (sep : string) (l : list string) : string :=
  match l with
  | [] => ""
  | x :: l' =>
      match l' with
      | [] => x
      | _ :: _ => x ++ sep ++ str_join sep l'
      end
  end.

(** The character [c] occurs in [s]. *)
Fixpoint contains_char (c : ascii) (s : string) : bool :=
  match s with
  | EmptyString => false
  | String c' s' => Ascii.eqb c c' || contains_char c s'
  end.

End Text.

Section MainText.
Context {num : Type} {NU : Numeric num} {LIB : CubeLibrary num}.

(** [float]: the number a text denotes, or the [ValueError] of the
    conversion. *)
Variable float : string -> Error + num.

(** [list(map(float, l))]: the conversions in order, up to the first that
    raises. *)
Fixpoint floats (l : list string) : Error + list num :=
  match l with
  | [] => inr []
  | s :: l' =>
      match float s with
      | inl e => inl e
      | inr v =>
          match floats l' with
          | inl e => inl e
          | inr vs => inr (v :: vs)
          end
      end
  end.

(** The parameters as the parameter file holds them: the three line lists
    are texts, their entries separated by [", "]. *)
Record ParamFile := mkParamFile {
  f_cube : SpectralCube num;
  f_spatialmaskcube : SpectralCube num;
  f_vz : num;
  f_target : string;
  f_brightest_line_frequency : num;
  f_width_line_frequency : num;
  f_linewidth_guess : num;
  f_noisemapbright_baseline : list (Z * Z);
  f_noisemap_baseline : list (Z * Z);
  f_spatial_mask_limit : num;
  f_signal_mask_limit : num;
  f_my_line_list : string;
  f_my_line_widths : string;
  f_my_line_names : string
}.

(** The three assignments of [main] that turn the texts into lists:
    frequencies first, then widths, then names. *)
Definition read_params (f : ParamFile) : Error + Params :=
  match floats (str_split ", " (f_my_line_list f)) with
  | inl e => inl e
  | inr my_line_list =>
      match floats (str_split ", " (f_my_line_widths f)) with
      | inl e => inl e
      | inr my_line_widths =>
          inr (mkParams (f_cube f) (f_spatialmaskcube f) (f_vz f)
                 (f_target f) (f_brightest_line_frequency f)
                 (f_width_line_frequency f) (f_linewidth_guess f)
                 (f_noisemapbright_baseline f) (f_noisemap_baseline f)
                 (f_spatial_mask_limit f) (f_signal_mask_limit f)
                 my_line_list my_line_widths
                 (str_split ", " (f_my_line_names f)))
      end
  end.

(** [main] from the texts of the parameter file. *)
Definition main_text (f : ParamFile) : Run num unit :=
  match read_params f with
  | inl e => raise e
  | inr p => main p
  end.

End MainText.

(** ** The files left on disk *)


(** ** A reader of plain decimal numerals over the reals *)

(** The value of a decimal digit. *)
Definition digit_of_ascii (c : ascii) : option Z :=
  let n := Z.of_nat (nat_of_ascii c) in
  if ((48 <=? n) && (n <=? 57))%Z then Some (n - 48)%Z else None.

(** Reads digits with at most one point: [m] is the number read without
    its point, [frac] counts the digits after the point once it is passed,
    [seen] tells whether a digit was read. *)
Fixpoint decimal_from (m : Z) (frac : option nat) (seen : bool) (s : string)
  : option (Z * nat) :=
  match s with
  | EmptyString =>
      if seen
      then Some (m, match frac with Some k => k | None => 0 end)
      else None
  | String c s' =>
      if Ascii.eqb c "."
      then match frac with
           | None => decimal_from m (Some 0) seen s'
           | Some _ => None
           end
      else match digit_of_ascii c with
           | Some d => decimal_from (10 * m + d) (option_map S frac) true s'
           | None => None
           end
  end.

(** [float] on plain decimal numerals such as [218.222192]; any other text
    is refused. *)
Definition decimal (s : string) : Error + R :=
  match decimal_from 0 None false s with
  | Some (m, k) => inr (IZR m / 10 ^ k)%R
  | None => inl (ValueError ("could not convert string to float: " ++ s))
  end.

(** A parameter file for the example cube, with one line. *)
Definition ex_file : ParamFile (num := R) :=
  mkParamFile ex_cube ex_cube 0%R "NGC253" 1%R 1%R 20%R [(0, 1)%Z]
              [(0, 1)%Z] 3%R 3%R "1" "20" "H2CO".

(** The same file with a second name and no second frequency. *)
Definition ex_file_mismatched : ParamFile (num := R) :=
  mkParamFile ex_cube ex_cube 0%R "NGC253" 1%R 1%R 20%R [(0, 1)%Z]
              [(0, 1)%Z] 3%R 3%R "1" "20" "H2CO, C18O".

(** * Properties *)

(** ** Indexing nested arrays *)

Section ZipFacts.
Context {A B C : Type}.

Lemma nth_error_zip_with (f : A -> B -> C) (l : list A) (m : list B) i :
  nth_error (zip_with f l m) i =
  match nth_error l i, nth_error m i with
  | Some a, Some b => Some (f a b)
  | _, _ => None
  end.
Proof.
  revert m i; induction l as [|a l IH]; intros [|b m] [|i]; simpl; auto.
  destruct (nth_error l i); reflexivity.
Qed.

Lemma length_zip_with (f : A -> B -> C) (l : list A) (m : list B) :
  length (zip_with f l m) = Nat.min (length l) (length m).
Proof.
  revert m; induction l as [|a l IH]; intros [|b m]; simpl; auto.
Qed.

End ZipFacts.

Lemma lookup2_map2d {A B : Type} (f : A -> B) (M : list (list A)) y x :
  lookup2 (map2d f M) y x = option_map f (lookup2 M y x).
Proof.
  unfold lookup2, map2d. rewrite nth_error_map.
  destruct (nth_error M y) as [row|]; simpl; [apply nth_error_map | reflexivity].
Qed.

Lemma lookup2_zip2d {A B C : Type} (f : A -> B -> C) (M : list (list A))
  (N : list (list B)) y x :
  lookup2 (zip2d f M N) y x =
  match lookup2 M y x, lookup2 N y x with
  | Some a, Some b => Some (f a b)
  | _, _ => None
  end.
Proof.
  unfold lookup2, zip2d. rewrite nth_error_zip_with.
  destruct (nth_error M y) as [r|]; [|reflexivity].
  destruct (nth_error N y) as [s|].
  - apply nth_error_zip_with.
  - destruct (nth_error r x); reflexivity.
Qed.

Lemma lookup3_zip3d {A B C : Type} (f : A -> B -> C) (X : list (list (list A)))
  (Y : list (list (list B))) k y x :
  lookup3 (zip3d f X Y) k y x =
  match lookup3 X k y x, lookup3 Y k y x with
  | Some a, Some b => Some (f a b)
  | _, _ => None
  end.
Proof.
  unfold lookup3, zip3d. rewrite nth_error_zip_with.
  destruct (nth_error X k) as [p|]; [|reflexivity].
  destruct (nth_error Y k) as [q|].
  - apply lookup2_zip2d.
  - destruct (lookup2 p y x); reflexivity.
Qed.

Lemma lookup3_map_map2d {A B : Type} (f : A -> B) (X : list (list (list A))) k y x :
  lookup3 (map (map2d f) X) k y x = option_map f (lookup3 X k y x).
Proof.
  unfold lookup3. rewrite nth_error_map.
  destruct (nth_error X k) as [p|]; simpl; [apply lookup2_map2d | reflexivity].
Qed.

Lemma lookup3_broadcast_cube_map {A B C : Type} (f : A -> B -> C)
  (X : list (list (list A))) (M : list (list B)) k y x :
  lookup3 (broadcast_cube_map f X M) k y x =
  match lookup3 X k y x, lookup2 M y x with
  | Some a, Some b => Some (f a b)
  | _, _ => None
  end.
Proof.
  unfold lookup3, broadcast_cube_map. rewrite nth_error_map.
  destruct (nth_error X k) as [p|]; simpl; [apply lookup2_zip2d | reflexivity].
Qed.

Lemma lookup3_broadcast_map_axis {A B C : Type} (f : A -> B -> C) (M : list (list A))
  (a : list B) k y x :
  lookup3 (broadcast_map_axis f M a) k y x =
  match nth_error a k, lookup2 M y x with
  | Some v, Some c => Some (f c v)
  | _, _ => None
  end.
Proof.
  unfold lookup3, broadcast_map_axis. rewrite nth_error_map.
  destruct (nth_error a k) as [v|]; simpl; [|reflexivity].
  rewrite lookup2_map2d. destruct (lookup2 M y x); reflexivity.
Qed.

Lemma lookup3_broadcast_cube_axis {A B C : Type} (f : A -> B -> C)
  (X : list (list (list A))) (a : list B) k y x :
  lookup3 (broadcast_cube_axis f X a) k y x =
  match lookup3 X k y x, nth_error a k with
  | Some c, Some v => Some (f c v)
  | _, _ => None
  end.
Proof.
  unfold lookup3, broadcast_cube_axis. rewrite nth_error_zip_with.
  destruct (nth_error X k) as [p|]; [|reflexivity].
  destruct (nth_error a k) as [v|].
  - rewrite lookup2_map2d. destruct (lookup2 p y x); reflexivity.
  - destruct (lookup2 p y x); reflexivity.
Qed.

Lemma lookup2_map_pixels {A : Type} (f : nat -> nat -> A) ny nx y x :
  lookup2 (map_pixels f ny nx) y x =
  if (y <? ny) && (x <? nx) then Some (f y x) else None.
Proof.
  unfold lookup2, map_pixels.
  rewrite nth_error_map, nth_error_seq.
  destruct (y <? ny); simpl; [|reflexivity].
  rewrite nth_error_map, nth_error_seq.
  destruct (x <? nx); reflexivity.
Qed.

Lemma lookup2_repeat {A : Type} (v : A) ny nx y x :
  lookup2 (repeat (repeat v nx) ny) y x =
  if (y <? ny) && (x <? nx) then Some v else None.
Proof.
  unfold lookup2.
  destruct (y <? ny) eqn:Hy; simpl.
  - apply Nat.ltb_lt in Hy. rewrite (nth_error_repeat _ Hy).
    destruct (x <? nx) eqn:Hx.
    + apply Nat.ltb_lt in Hx. apply nth_error_repeat, Hx.
    + apply Nat.ltb_ge in Hx. apply nth_error_None.
      rewrite repeat_length. exact Hx.
  - apply Nat.ltb_ge in Hy.
    replace (nth_error (repeat (repeat v nx) ny) y) with (@None (list A)).
    + reflexivity.
    + symmetry. apply nth_error_None. rewrite repeat_length. exact Hy.
Qed.

Lemma lookup3_tile_axis {A : Type} (a : list A) shape k y x :
  lookup3 (tile_axis a shape) k y x =
  if (y <? fst shape) && (x <? snd shape) then nth_error a k else None.
Proof.
  unfold lookup3, tile_axis. rewrite nth_error_map.
  destruct (nth_error a k) as [v|]; simpl.
  - apply lookup2_repeat.
  - destruct ((y <? fst shape) && (x <? snd shape)); reflexivity.
Qed.


(** A voxel of the data lies within the spatial shape of the cube. *)
Lemma lookup3_in_shape {A : Type} (X : list (list (list A))) k y x d :
  (forall p, In p X -> length p = fst (plane_shape X)) ->
  (forall p r, In p X -> In r p -> length r = snd (plane_shape X)) ->
  lookup3 X k y x = Some d ->
  y < fst (plane_shape X) /\ x < snd (plane_shape X).
Proof.
  intros Hrows Hcols. unfold lookup3, lookup2.
  destruct (nth_error X k) as [p|] eqn:Hp; [|discriminate].
  destruct (nth_error p y) as [r|] eqn:Hr; [|discriminate].
  intros Hx.
  pose proof (nth_error_In _ _ Hp) as Ip.
  pose proof (nth_error_In _ _ Hr) as Ir.
  split.
  - rewrite <- (Hrows p Ip). apply nth_error_Some. congruence.
  - rewrite <- (Hcols p r Ip Ir). apply nth_error_Some. congruence.
Qed.

(** ** The baseline channel mask *)

Section BaselineFacts.
Local Open Scope Z_scope.

Lemma length_assign_true_from i start stop m :
  length (assign_true_from i start stop m) = length m.
Proof.
  revert i; induction m as [|b m IH]; intros i; simpl; [|rewrite IH];
    reflexivity.
Qed.

Lemma nth_error_assign_true_from i start stop m j :
  nth_error (assign_true_from i start stop m) j =
  option_map (fun b => b || ((start <=? i + Z.of_nat j)
                             && (i + Z.of_nat j <? stop)))
             (nth_error m j).
Proof.
  revert i j; induction m as [|b m IH]; intros i [|j]; simpl nth_error;
    try reflexivity.
  - simpl. rewrite Z.add_0_r.
    destruct ((start <=? i) && (i <? stop)), b; reflexivity.
  - rewrite IH. replace (i + 1 + Z.of_nat j) with (i + Z.of_nat (S j)) by lia.
    reflexivity.
Qed.

Lemma length_slice_assign_true low high m :
  length (slice_assign_true low high m) = length m.
Proof. apply length_assign_true_from. Qed.

Lemma nth_error_slice_assign_true low high m j :
  nth_error (slice_assign_true low high m) j =
  option_map (fun b => b || in_slice (length m) low high j) (nth_error m j).
Proof.
  unfold slice_assign_true. rewrite nth_error_assign_true_from.
  reflexivity.
Qed.

Lemma nth_error_baseline_fold baseline m j :
  nth_error
    (fold_left (fun m lh => slice_assign_true (fst lh) (snd lh) m)
               baseline m) j =
  option_map
    (fun b => b || existsb (fun lh => in_slice (length m) (fst lh) (snd lh) j)
                           baseline)
    (nth_error m j).
Proof.
  revert m; induction baseline as [|[low high] baseline IH]; intros m; simpl.
  - destruct (nth_error m j) as [b|]; simpl; [rewrite orb_false_r|];
      reflexivity.
  - rewrite IH, nth_error_slice_assign_true, length_slice_assign_true.
    destruct (nth_error m j) as [b|]; simpl; [rewrite orb_assoc|];
      reflexivity.
Qed.

(** The mask the loop builds holds, at each channel, whether the baseline
    list selects the channel. *)
Lemma nth_error_baseline_mask nchan baseline i :
  nth_error (baseline_mask nchan baseline) i =
  if (i <? nchan)%nat then Some (baseline_selects nchan baseline i)
  else None.
Proof.
  unfold baseline_mask. rewrite nth_error_baseline_fold, repeat_length.
  destruct (i <? nchan)%nat eqn:Hi.
  - apply Nat.ltb_lt in Hi. rewrite (nth_error_repeat _ Hi). reflexivity.
  - apply Nat.ltb_ge in Hi.
    replace (nth_error (repeat false nchan) i) with (@None bool);
      [reflexivity|].
    symmetry. apply nth_error_None. rewrite repeat_length. exact Hi.
Qed.

Lemma baseline_selects_spec nchan baseline i :
  baseline_selects nchan baseline i = true <->
  exists low high,
    In (low, high) baseline /\
    slice_bound (Z.of_nat nchan) low <= Z.of_nat i
      < slice_bound (Z.of_nat nchan) high.
Proof.
  unfold baseline_selects. rewrite existsb_exists. split.
  - intros [[low high] [Hin Hs]]. exists low, high. split; [exact Hin|].
    unfold in_slice in Hs. simpl in Hs. apply andb_true_iff in Hs. lia.
  - intros (low & high & Hin & Hs). exists (low, high). split; [exact Hin|].
    unfold in_slice. simpl. apply andb_true_iff. lia.
Qed.

(** For bounds that are channel indices or lie past the end, the slice
    rule is the plain interval. *)
Lemma slice_bound_nonneg n k i :
  0 <= k -> 0 <= i < n ->
  (slice_bound n k <= i <-> k <= i) /\ (i < slice_bound n k <-> i < k).
Proof.
  intros Hk Hi. unfold slice_bound.
  destruct (k <? 0) eqn:E; [apply Z.ltb_lt in E; lia|]. lia.
Qed.

Example baseline_mask_pairs :
  baseline_mask 6 [(1, 3); (4, 10)] = [false; true; true; false; true; true].
Proof. reflexivity. Qed.

Example baseline_mask_negative_low :
  baseline_mask 4 [(-1, 4)] = [false; false; false; true].
Proof. reflexivity. Qed.

Example baseline_mask_negative_high :
  baseline_mask 4 [(2, -1)] = [false; false; true; false].
Proof. reflexivity. Qed.

Example baseline_mask_empty_slice :
  baseline_mask 4 [(3, 1)] = [false; false; false; false].
Proof. reflexivity. Qed.

End BaselineFacts.

(** ** Voxels of masked cubes *)

Section CubeFacts.
Context {num : Type} {NU : Numeric num} {LIB : CubeLibrary num}.

Lemma voxel_with_mask (c : SpectralCube num) m k y x :
  voxel (with_mask c m) k y x =
  match lookup3 m k y x with
  | Some true => voxel c k y x
  | _ => None
  end.
Proof.
  unfold voxel, with_mask; simpl. rewrite lookup3_zip3d.
  destruct (lookup3 (cube_mask c) k y x) as [[|]|];
    destruct (lookup3 m k y x) as [[|]|]; reflexivity.
Qed.

Lemma voxel_with_channel_mask (c : SpectralCube num) m k y x :
  voxel (with_channel_mask c m) k y x =
  match nth_error m k with
  | Some true => voxel c k y x
  | _ => None
  end.
Proof.
  unfold voxel, with_channel_mask; simpl. rewrite lookup3_broadcast_cube_axis.
  destruct (lookup3 (cube_mask c) k y x) as [[|]|];
    destruct (nth_error m k) as [[|]|]; reflexivity.
Qed.

Lemma voxel_Some_data (c : SpectralCube num) k y x d :
  voxel c k y x = Some d -> lookup3 (cube_data c) k y x = Some d.
Proof.
  unfold voxel.
  destruct (lookup3 (cube_mask c) k y x) as [[|]|]; try discriminate.
  destruct (lookup3 (cube_data c) k y x); congruence.
Qed.

Lemma voxel_Some_channel (c : SpectralCube num) k y x d :
  voxel c k y x = Some d -> k < length (cube_data c).
Proof.
  intros H. apply voxel_Some_data in H. unfold lookup3 in H.
  apply nth_error_Some. destruct (nth_error (cube_data c) k); congruence.
Qed.

Lemma nth_error_los (c : SpectralCube num) y x k :
  nth_error (los c y x) k =
  if k <? length (cube_data c) then Some (voxel c k y x) else None.
Proof.
  unfold los. rewrite nth_error_map, nth_error_seq.
  destruct (k <? length (cube_data c)); reflexivity.
Qed.

Lemma lookup2_reduce_los {B : Type} (f : list (option num) -> B)
  (c : SpectralCube num) y x :
  lookup2 (reduce_los f c) y x =
  if (y <? fst (plane_shape (cube_data c)))
     && (x <? snd (plane_shape (cube_data c)))
  then Some (f (los c y x)) else None.
Proof. unfold reduce_los. apply lookup2_map_pixels. Qed.

(** A moment map holds, at each pixel of the grid, the kernel of the
    library on the line of sight of the pixel, whose entry at channel [k]
    is the voxel when the cube includes it. *)
Lemma lookup2_moment (order : nat) (c : SpectralCube num) y x :
  lookup2 (moment order c) y x =
  if (y <? fst (plane_shape (cube_data c)))
     && (x <? snd (plane_shape (cube_data c)))
  then Some (los_moment order (spectral_axis c) (los c y x)) else None.
Proof. unfold moment. apply lookup2_reduce_los. Qed.

(** The samples of the noise estimate: a voxel of the cube enters the
    estimate exactly when the baseline list selects its channel. *)
Lemma nth_error_noise_samples (cube : SpectralCube num) baseline y x k :
  nth_error (noise_samples cube baseline y x) k =
  if k <? length (cube_data cube)
  then Some (if baseline_selects (length (cube_data cube)) baseline k
             then voxel cube k y x else None)
  else None.
Proof.
  unfold noise_samples. rewrite nth_error_los. simpl.
  destruct (k <? length (cube_data cube)) eqn:Hk; [|reflexivity].
  rewrite voxel_with_channel_mask, nth_error_baseline_mask, Hk.
  reflexivity.
Qed.

Lemma noise_sample_included (cube : SpectralCube num) baseline y x k d :
  nth_error (noise_samples cube baseline y x) k = Some (Some d) <->
  voxel cube k y x = Some d /\
  baseline_selects (length (cube_data cube)) baseline k = true.
Proof.
  rewrite nth_error_noise_samples. split.
  - destruct (k <? length (cube_data cube)); [|discriminate].
    destruct (baseline_selects _ baseline k); [|discriminate].
    intros H; split; congruence.
  - intros [Hv Hs]. pose proof (voxel_Some_channel _ _ _ _ Hv) as Hk.
    apply Nat.ltb_lt in Hk. rewrite Hk, Hs, Hv. reflexivity.
Qed.

(** ** The masks of one line *)

Lemma lookup3_velocity_mask (peak_velocity : list (list num))
  (subcube : SpectralCube num) line_width k y x :
  lookup3 (velocity_mask peak_velocity subcube line_width) k y x =
  match nth_error (spectral_axis subcube) k, lookup2 peak_velocity y x with
  | Some v, Some pv =>
      if (y <? fst (plane_shape (cube_data subcube)))
         && (x <? snd (plane_shape (cube_data subcube)))
      then Some (nlt (nabs (nsub pv v)) line_width) else None
  | _, _ => None
  end.
Proof.
  unfold velocity_mask, lookup3, tile_axis.
  rewrite !nth_error_map.
  destruct (nth_error (spectral_axis subcube) k) as [v|]; simpl;
    [|reflexivity].
  rewrite lookup2_map2d, lookup2_zip2d, lookup2_repeat.
  destruct (lookup2 peak_velocity y x) as [pv|]; [|reflexivity].
  destruct ((y <? fst (plane_shape (cube_data subcube)))
            && (x <? snd (plane_shape (cube_data subcube)))); reflexivity.
Qed.

Lemma lookup3_signal_mask (subcube : SpectralCube num) limit noisemap k y x :
  lookup3 (signal_mask subcube limit noisemap) k y x =
  match lookup3 (cube_data subcube) k y x, lookup2 noisemap y x with
  | Some d, Some n => Some (ngt d (nmul limit n))
  | _, _ => None
  end.
Proof.
  unfold signal_mask, cube_gt.
  rewrite lookup3_broadcast_cube_map, lookup2_map2d.
  destruct (lookup3 (cube_data subcube) k y x), (lookup2 noisemap y x);
    reflexivity.
Qed.

Lemma lookup3_gauss_mask_cube (centroid_map width_map : list (list num))
  axis k y x :
  lookup3 (gauss_mask_cube centroid_map width_map axis) k y x =
  match nth_error axis k, lookup2 centroid_map y x, lookup2 width_map y x
  with
  | Some v, Some c, Some w => Some (gauss_value c v w)
  | _, _, _ => None
  end.
Proof.
  unfold gauss_mask_cube, gauss_value.
  rewrite lookup3_map_map2d, lookup3_broadcast_cube_map, lookup3_map_map2d,
    lookup3_broadcast_map_axis, lookup2_map2d.
  destruct (nth_error axis k), (lookup2 centroid_map y x),
    (lookup2 width_map y x); reflexivity.
Qed.

Lemma lookup2_threshold_map (max_map noisemap : list (list num)) y x :
  lookup2 (threshold_map max_map noisemap) y x =
  match lookup2 max_map y x, lookup2 noisemap y x with
  | Some mx, Some n => Some (threshold_value mx n)
  | _, _ => None
  end.
Proof.
  unfold threshold_map, threshold_value. rewrite lookup2_map2d, lookup2_zip2d.
  destruct (lookup2 max_map y x), (lookup2 noisemap y x); reflexivity.
Qed.

Lemma lookup3_width_mask_cube (centroid_map width_map max_map noisemap
  : list (list num)) axis k y x :
  lookup3 (width_mask_cube centroid_map width_map max_map noisemap axis)
          k y x =
  match lookup3 (gauss_mask_cube centroid_map width_map axis) k y x,
        lookup2 (threshold_map max_map noisemap) y x with
  | Some g, Some t => Some (ngt g t)
  | _, _ => None
  end.
Proof. unfold width_mask_cube. apply lookup3_broadcast_cube_map. Qed.

Lemma velocity_mask_true peak_velocity (subcube : SpectralCube num)
  line_width k y x :
  lookup3 (velocity_mask peak_velocity subcube line_width) k y x = Some true
  <-> in_velocity_window peak_velocity subcube line_width k y x.
Proof.
  rewrite lookup3_velocity_mask. unfold in_velocity_window, on_grid. split.
  - destruct (nth_error (spectral_axis subcube) k) as [v|]; [|discriminate].
    destruct (lookup2 peak_velocity y x) as [pv|]; [|discriminate].
    destruct (_ && _) eqn:G; [|discriminate].
    apply andb_true_iff in G. destruct G as [Gy Gx].
    apply Nat.ltb_lt in Gy, Gx. intros H. exists v, pv.
    repeat split; try assumption; congruence.
  - intros (v & pv & Hv & Hp & [Gy Gx] & Hw).
    apply Nat.ltb_lt in Gy, Gx. rewrite Hv, Hp, Gy, Gx, Hw. reflexivity.
Qed.

Lemma signal_mask_true (subcube : SpectralCube num) limit noisemap k y x :
  lookup3 (signal_mask subcube limit noisemap) k y x = Some true
  <-> above_signal_limit subcube limit noisemap k y x.
Proof.
  rewrite lookup3_signal_mask. unfold above_signal_limit. split.
  - destruct (lookup3 (cube_data subcube) k y x) as [d|]; [|discriminate].
    destruct (lookup2 noisemap y x) as [n|]; [|discriminate].
    intros H. exists d, n. repeat split; congruence.
  - intros (d & n & Hd & Hn & Hs). rewrite Hd, Hn, Hs. reflexivity.
Qed.

Lemma width_mask_true (centroid_map width_map max_map noisemap
  : list (list num)) axis k y x :
  lookup3 (width_mask_cube centroid_map width_map max_map noisemap axis)
          k y x = Some true
  <-> above_gauss_threshold centroid_map width_map max_map noisemap axis
                            k y x.
Proof.
  rewrite lookup3_width_mask_cube, lookup3_gauss_mask_cube,
    lookup2_threshold_map.
  unfold above_gauss_threshold. split.
  - destruct (nth_error axis k) as [v|]; [|discriminate].
    destruct (lookup2 centroid_map y x) as [c|]; [|discriminate].
    destruct (lookup2 width_map y x) as [w|]; [|discriminate].
    destruct (lookup2 max_map y x) as [mx|]; [|discriminate].
    destruct (lookup2 noisemap y x) as [n|]; [|discriminate].
    intros H. exists v, c, w, mx, n. repeat split; congruence.
  - intros (v & c & w & mx & n & Hv & Hc & Hw & Hm & Hn & Hg).
    rewrite Hv, Hc, Hw, Hm, Hn, Hg. reflexivity.
Qed.

Lemma spatial_mask_true (cube spatialmaskcube : SpectralCube num)
  vz bf wf lw blb bl limit y x :
  lookup2 (s_spatial_mask
             (cubelinemoment_setup cube spatialmaskcube vz bf wf lw blb bl
                                   limit)) y x = Some true
  <-> above_spatial_limit (cube_max (brightest_slab spatialmaskcube vz bf lw))
                          (baseline_noise cube blb) limit y x.
Proof.
  unfold cubelinemoment_setup; simpl. rewrite lookup2_zip2d, lookup2_map2d.
  unfold above_spatial_limit. split.
  - destruct (lookup2 (cube_max _) y x) as [a|]; [|discriminate].
    destruct (lookup2 (baseline_noise cube blb) y x) as [nb|];
      [|discriminate].
    simpl. intros H. exists a, nb. repeat split; congruence.
  - intros (a & nb & Ha & Hn & Hs). rewrite Ha, Hn. simpl. rewrite Hs.
    reflexivity.
Qed.

End CubeFacts.

(** ** The masked subcube of a line *)

Section MaskTheorems.
Context {num : Type} {NU : Numeric num} {LIB : CubeLibrary num}.

Lemma voxel_line_msubcube (cube : SpectralCube num)
  (peak_velocity centroid_map max_map noisemap : list (list num))
  (signal_mask_limit : num) (spatial_mask : list (list bool))
  (width_map : list (list num)) (line_freq line_width : num) k y x d :
  let subcube := line_subcube cube peak_velocity line_freq line_width in
  voxel (line_msubcube cube peak_velocity centroid_map max_map noisemap
           signal_mask_limit spatial_mask width_map line_freq line_width)
        k y x = Some d <->
  voxel subcube k y x = Some d /\
  in_velocity_window peak_velocity subcube line_width k y x /\
  lookup2 spatial_mask y x = Some true /\
  above_signal_limit subcube signal_mask_limit noisemap k y x /\
  above_gauss_threshold centroid_map width_map max_map noisemap
                        (spectral_axis subcube) k y x.
Proof.
  intros subcube. unfold line_msubcube. fold subcube.
  rewrite !voxel_with_mask, lookup3_broadcast_cube_map.
  rewrite <- velocity_mask_true, <- signal_mask_true, <- width_mask_true.
  split.
  - destruct (lookup3 (width_mask_cube _ _ _ _ _) k y x) as [[|]|];
      try discriminate.
    destruct (lookup3 (signal_mask _ _ _) k y x) as [[|]|];
      try discriminate.
    destruct (lookup3 (velocity_mask _ _ _) k y x) as [[|]|];
      try discriminate;
      destruct (lookup2 spatial_mask y x) as [[|]|]; try discriminate.
    intros H. repeat split; auto.
  - intros (Hv & Hm & Hs & Hg & Hw). rewrite Hw, Hg, Hm, Hs. exact Hv.
Qed.


(** C2.  For the slab of every line, the Gaussian mask cube holds
    [exp(-(centroid_map - v)^2 / (2 * width_map^2))] at channel [v] and
    pixel [(y, x)], and the width mask holds at a voxel whether that value
    is strictly greater than the threshold [exp(-(max_map/noisemap)^2 / 2)]
    of the pixel. *)
Theorem gauss_mask_and_width_mask (cube : SpectralCube num)
  (peak_velocity centroid_map width_map max_map noisemap : list (list num))
  (line_freq line_width : num) (k y x : nat) :
  let axis :=
    spectral_axis (line_subcube cube peak_velocity line_freq line_width) in
  lookup3 (gauss_mask_cube centroid_map width_map axis) k y x =
    match nth_error axis k, lookup2 centroid_map y x, lookup2 width_map y x
    with
    | Some v, Some c, Some w =>
        Some (nexp (ndiv (nneg (nsquare (nsub c v)))
                         (nmul (nlit 2) (nsquare w))))
    | _, _, _ => None
    end
  /\
  lookup3 (width_mask_cube centroid_map width_map max_map noisemap axis)
          k y x =
    match lookup3 (gauss_mask_cube centroid_map width_map axis) k y x,
          lookup2 max_map y x, lookup2 noisemap y x with
    | Some g, Some mx, Some n =>
        Some (ngt g (nexp (ndiv (nneg (nsquare (ndiv mx n))) (nlit 2))))
    | _, _, _ => None
    end.
Proof.
  intros axis. split.
  - apply lookup3_gauss_mask_cube.
  - rewrite lookup3_width_mask_cube, lookup2_threshold_map.
    destruct (lookup3 (gauss_mask_cube centroid_map width_map axis) k y x),
      (lookup2 max_map y x), (lookup2 noisemap y x); reflexivity.
Qed.



(** For a baseline list of non-negative pairs the slice rule is the plain
    interval: a voxel at channel [k] is among the samples exactly when some
    pair has [low <= k < high]. *)
Lemma noise_sample_included_nonneg (cube : SpectralCube num)
  (baseline : list (Z * Z)) y x k d :
  (forall low high, In (low, high) baseline -> 0 <= low /\ 0 <= high)%Z ->
  nth_error (noise_samples cube baseline y x) k = Some (Some d) <->
  voxel cube k y x = Some d /\
  exists low high,
    In (low, high) baseline /\ (low <= Z.of_nat k < high)%Z.
Proof.
  intros Hpos. rewrite noise_sample_included, baseline_selects_spec.
  split; intros [Hv (low & high & Hin & Hs)]; (split; [exact Hv|]);
    exists low, high; (split; [exact Hin|]);
    pose proof (voxel_Some_channel _ _ _ _ Hv) as Hk;
    destruct (Hpos _ _ Hin) as [Hl Hh];
    assert (Hr : (0 <= Z.of_nat k < Z.of_nat (length (cube_data cube)))%Z)
      by lia;
    destruct (slice_bound_nonneg Hl Hr) as [L1 _];
    destruct (slice_bound_nonneg Hh Hr) as [_ H2]; lia.
Qed.

(** C6 (amended).  Each noise map of the setup is, pixel by pixel, the
    standard deviation of the samples its baseline list selects; a voxel
    of the cube at channel [k] is among the samples exactly when some pair
    [(low, high)] of the list has [low' <= k < high'], where [low'] and
    [high'] are the bounds as a Python slice adjusts them (a negative bound
    counts from the last channel, and bounds are clamped to the axis).
    For a list of non-negative pairs this is [low <= k < high]. *)
Theorem noise_maps_over_baseline_channels
  (cube spatialmaskcube : SpectralCube num)
  (vz bf wf lw : num) (noisemapbright_baseline noisemap_baseline
  : list (Z * Z)) (limit : num) :
  let s := cubelinemoment_setup cube spatialmaskcube vz bf wf lw
             noisemapbright_baseline noisemap_baseline limit in
  let nchan := length (cube_data cube) in
  let ny := fst (plane_shape (cube_data cube)) in
  let nx := snd (plane_shape (cube_data cube)) in
  s_noisemapbright s =
    map_pixels
      (fun y x => los_std (noise_samples cube noisemapbright_baseline y x))
      ny nx
  /\
  s_noisemap s =
    map_pixels
      (fun y x => los_std (noise_samples cube noisemap_baseline y x)) ny nx
  /\
  (forall baseline y x k d,
    nth_error (noise_samples cube baseline y x) k = Some (Some d) <->
    voxel cube k y x = Some d /\
    exists low high,
      In (low, high) baseline /\
      (slice_bound (Z.of_nat nchan) low <= Z.of_nat k
       < slice_bound (Z.of_nat nchan) high)%Z)
  /\
  (forall baseline,
     (forall low high, In (low, high) baseline -> 0 <= low /\ 0 <= high)%Z ->
     forall y x k d,
       nth_error (noise_samples cube baseline y x) k = Some (Some d) <->
       voxel cube k y x = Some d /\
       exists low high,
         In (low, high) baseline /\ (low <= Z.of_nat k < high)%Z).
Proof.
  intros s nchan ny nx. split; [reflexivity|]. split; [reflexivity|].
  split.
  - intros baseline y x k d.
    rewrite noise_sample_included, baseline_selects_spec. reflexivity.
  - intros baseline Hpos y x k d.
    apply noise_sample_included_nonneg, Hpos.
Qed.

End MaskTheorems.

(** ** Runs of [cubelinemoment_multiline] *)

Lemma length_zip3 {A B C : Type} (a : list A) (b : list B) (c : list C) :
  length a = length b -> length a = length c ->
  length (zip3 a b c) = length a.
Proof.
  revert b c; induction a as [|x a IH]; intros [|y b] [|z c]; simpl;
    try discriminate; auto.
Qed.




Section RunFacts.
Context {num : Type} {NU : Numeric num} {LIB : CubeLibrary num}.

(** A loop whose body only writes returns, having appended the files of
    each pass in turn. *)
Lemma for_each_writes {X : Type} (body : X -> Run num unit)
  (g : X -> list (Output num)) (l : list X) :
  (forall x written, body x written = (inr tt, written ++ g x)) ->
  forall written,
    for_each l body written = (inr tt, written ++ flat_map g l).
Proof.
  intros Hbody. induction l as [|x l IH]; intros written; simpl.
  - unfold ret. rewrite app_nil_r. reflexivity.
  - unfold bind. rewrite Hbody, IH, app_assoc. reflexivity.
Qed.

Lemma write_moment_run target line_name (msubcube : SpectralCube num)
  order written :
  write_moment target line_name msubcube order written =
  (inr tt, written ++ moment_outputs target line_name msubcube order).
Proof.
  unfold write_moment, moment_outputs, bind, write. rewrite <- app_assoc.
  reflexivity.
Qed.

Lemma lengths_differ_false (my_line_list my_line_widths : list num)
  (my_line_names : list string) :
  lengths_differ my_line_list my_line_widths my_line_names = false <->
  length my_line_names = length my_line_list /\
  length my_line_names = length my_line_widths.
Proof.
  unfold lengths_differ. rewrite orb_false_iff, !negb_false_iff, !Nat.eqb_eq.
  reflexivity.
Qed.

(** The run of the extraction: the error and nothing written, or the files
    of every line, line after line. *)
Lemma multiline_run (cube : SpectralCube num)
  (peak_velocity centroid_map max_map noisemap : list (list num))
  (signal_mask_limit spatial_mask_limit : num)
  (my_line_list my_line_widths : list num) (my_line_names : list string)
  (target : string) (spatial_mask : list (list bool))
  (width_map : list (list num)) (written : list (Output num)) :
  cubelinemoment_multiline cube peak_velocity centroid_map max_map noisemap
    signal_mask_limit spatial_mask_limit my_line_list my_line_widths
    my_line_names target spatial_mask width_map written =
  if lengths_differ my_line_list my_line_widths my_line_names
  then (inl length_error, written)
  else
    (inr tt,
     written ++
       flat_map
         (fun line =>
            line_outputs target (fst (fst line))
              (line_msubcube cube peak_velocity centroid_map max_map
                 noisemap signal_mask_limit spatial_mask width_map
                 (snd (fst line)) (snd line)))
         (zip3 my_line_names my_line_list my_line_widths)).
Proof.
  unfold cubelinemoment_multiline.
  destruct (lengths_differ my_line_list my_line_widths my_line_names);
    [reflexivity|].
  apply for_each_writes. intros [[line_name line_freq] line_width] w.
  simpl fst; simpl snd. unfold line_outputs.
  apply for_each_writes. intros order w'. apply write_moment_run.
Qed.


End RunFacts.

Section RunTheorems.
Context {num : Type} {NU : Numeric num} {LIB : CubeLibrary num}.

Variable cube : SpectralCube num.
Variables peak_velocity centroid_map max_map noisemap : list (list num).
Variables signal_mask_limit spatial_mask_limit : num.
Variables my_line_list my_line_widths : list num.
Variable my_line_names : list string.
Variable target : string.
Variable spatial_mask : list (list bool).
Variable width_map : list (list num).

(** The run of the extraction on the inputs of this section, and the masked
    subcube of a line. *)
Local Abbreviation run :=
  (cubelinemoment_multiline cube peak_velocity centroid_map max_map noisemap
     signal_mask_limit spatial_mask_limit my_line_list my_line_widths
     my_line_names target spatial_mask width_map).

Local Abbreviation msubcube_of line_freq line_width :=
  (line_msubcube cube peak_velocity centroid_map max_map noisemap
     signal_mask_limit spatial_mask width_map line_freq line_width).


(** C9.  When the length check fails the error is raised before the loop
    over the lines: the run ends in the error and the files written are
    those written before the call. *)
Theorem length_error_writes_nothing (written : list (Output num)) :
  lengths_differ my_line_list my_line_widths my_line_names = true ->
  run written = (inl length_error, written).
Proof.
  intros Hd. rewrite multiline_run, Hd. reflexivity.
Qed.




End RunTheorems.

(** ** The extraction over the reals *)

Section RealFacts.
Local Open Scope R_scope.

Lemma Rltb_true_iff a b : Rltb a b = true <-> a < b.
Proof. unfold Rltb. destruct (Rlt_dec a b); split; auto; discriminate. Qed.

Lemma Rltb_true a b : a < b -> Rltb a b = true.
Proof. apply Rltb_true_iff. Qed.

Lemma Rltb_false a b : b <= a -> Rltb a b = false.
Proof. unfold Rltb. destruct (Rlt_dec a b); [lra|reflexivity]. Qed.




(** *** The example line *)

Lemma c_kms_pos : 0 < c_kms.
Proof. unfold c_kms. lra. Qed.

Lemma optical_velocity_rest : optical_velocity 1 1 = 0.
Proof. unfold optical_velocity. field. Qed.

Lemma optical_velocity_10 : optical_velocity 1 (c_kms / (c_kms + 10)) = 10.
Proof. pose proof c_kms_pos. unfold optical_velocity. field. lra. Qed.

Ltac solve_real :=
  unfold Rabs;
  repeat match goal with
         | |- context [Rcase_abs ?x] => destruct (Rcase_abs x)
         end;
  lra.

Ltac decide_Rltb :=
  repeat match goal with
         | |- context [Rltb ?a ?b] =>
             first [ rewrite (@Rltb_true a b) by solve_real
                   | rewrite (@Rltb_false a b) by solve_real ]
         end.

(** The slab of the example line holds both channels, at 0 and 10 km/s. *)
Lemma ex_subcube_eq :
  line_subcube ex_cube ex_peak_velocity 1 20 =
  mkCube [0; 10] [[[1]]; [[1]]] [[[true]]; [[true]]].
Proof.
  unfold line_subcube.
  cbv [with_spectral_unit spectral_slab quantity_min quantity_max R_library
       nsub nadd R_numeric].
  unfold R_spectral_slab, R_with_spectral_unit, ex_cube, ex_peak_velocity,
    R_quantity_min, R_quantity_max.
  cbn [spectral_axis cube_data cube_mask map concat app fold_left
       closest_spectral_channel closest_from].
  rewrite optical_velocity_rest, optical_velocity_10.
  decide_Rltb. reflexivity.
Qed.

(** Both voxels pass the four masks. *)
Lemma ex_msubcube_eq :
  ex_msubcube = mkCube [0; 10] [[[1]]; [[1]]] [[[true]]; [[true]]].
Proof.
  unfold ex_msubcube, line_msubcube. rewrite ex_subcube_eq.
  unfold with_mask, velocity_mask, signal_mask, cube_gt, width_mask_cube,
    gauss_mask_cube, threshold_map, ex_peak_velocity, ex_centroid_map,
    ex_max_map, ex_noisemap, ex_spatial_mask, ex_width_map.
  cbn [spectral_axis cube_data cube_mask plane_shape tile_axis fst snd
       length hd map repeat zip3d zip2d zip_with map2d broadcast_cube_map
       broadcast_map_axis andb].
  cbv [ngt nlt nexp ndiv nneg nsquare nsub nmul nabs nlit R_numeric].
  rewrite !(@Rltb_true (exp _) (exp _)) by (apply exp_increasing; lra).
  decide_Rltb. reflexivity.
Qed.



End RealFacts.

(** ** Worked runs *)

Section Examples.
Local Open Scope R_scope.
Local Open Scope string_scope.

Example moment_path_example :
  moment_path 2 "NGC253" "H2CO" ".fits" = "moment2/NGC253_H2CO_moment2.fits".
Proof. reflexivity. Qed.




Lemma length_error_writes_nothing_witness :
  ex_run_mismatched [] = (inl length_error, []).
Proof.
  apply (@length_error_writes_nothing R R_numeric R_library ex_cube
           ex_peak_velocity ex_centroid_map ex_max_map ex_noisemap 3 3 [1]
           [20] ["H2CO"; "C18O"] "NGC253" ex_spatial_mask
           ex_width_map []).
  reflexivity.
Defined.


(** With the baseline list [[(-1, 4)]] on four channels every channel [i]
    has [-1 <= i < 4], yet the noise estimate takes the last channel only:
    the slice [mask[-1:4]] is [mask[3:4]]. *)
Lemma negative_bound_selects_last_channel :
  noise_samples ex_cube4 [(-1, 4)%Z] 0 0 = [None; None; None; Some 4] /\
  voxel ex_cube4 0 0 0 = Some 1 /\
  (exists low high,
     In (low, high) [(-1, 4)%Z] /\ (low <= Z.of_nat 0 < high)%Z).
Proof.
  split; [reflexivity|]. split; [reflexivity|].
  exists (-1)%Z, 4%Z. split; [left; reflexivity|lia].
Qed.

End Examples.

(** ** Splitting and joining the texts of the parameter file *)

Section TextFacts.
Local Open Scope string_scope.

Lemma str_app_nil_r (s : string) : s ++ "" = s.
Proof. induction s as [|c s IH]; simpl; [|rewrite IH]; reflexivity. Qed.

Lemma str_app_assoc (a b c : string) : (a ++ b) ++ c = a ++ b ++ c.
Proof. induction a as [|x a IH]; simpl; [|rewrite IH]; reflexivity. Qed.

Lemma str_length_app (a b : string) :
  String.length (a ++ b) = String.length a + String.length b.
Proof. induction a as [|x a IH]; simpl; [|rewrite IH]; reflexivity. Qed.

Lemma prefix_app (sep s : string) :
  prefix sep s = true -> exists t, s = sep ++ t.
Proof.
  revert s; induction sep as [|c sep IH]; intros s H.
  - exists s. reflexivity.
  - destruct s as [|c' s]; simpl in H; [discriminate|].
    destruct (ascii_dec c c') as [->|]; [|discriminate].
    destruct (IH _ H) as [t ->]. exists t. reflexivity.
Qed.

Lemma split_from_nonempty sep skip piece s :
  split_from sep skip piece s <> [].
Proof.
  revert skip piece; induction s as [|c s IH]; intros skip piece; simpl.
  - discriminate.
  - destruct skip; [|apply IH].
    destruct (match sep with "" => _ | String _ _ => _ end);
      [discriminate | apply IH].
Qed.

(** Passing the rest of a separator. *)
Lemma split_from_skip sep u piece t :
  split_from sep (String.length u) piece (u ++ t) = split_from sep 0 piece t.
Proof. induction u as [|c u IH]; simpl; [reflexivity | exact IH]. Qed.

Lemma str_join_cons sep x l :
  l <> [] -> str_join sep (x :: l) = x ++ sep ++ str_join sep l.
Proof. destruct l; [congruence | reflexivity]. Qed.

Lemma join_split_from sep n :
  sep <> "" ->
  forall s piece,
    String.length s <= n ->
    str_join sep (split_from sep 0 piece s) = piece ++ s.
Proof.
  intros Hsep. induction n as [|n IH]; intros s piece Hn.
  - destruct s; [|simpl in Hn; lia]. simpl. rewrite str_app_nil_r.
    reflexivity.
  - destruct s as [|c s]; [simpl; rewrite str_app_nil_r; reflexivity|].
    cbn [split_from].
    destruct (prefix sep (String c s)) eqn:Hp.
    + destruct (prefix_app _ _ Hp) as [t Ht].
      destruct sep as [|c0 sep]; [congruence|].
      simpl in Ht. injection Ht as -> ->.
      cbn [String.length]. rewrite Nat.sub_succ, Nat.sub_0_r.
      rewrite split_from_skip.
      rewrite str_join_cons by apply split_from_nonempty.
      rewrite IH.
      * reflexivity.
      * simpl in Hn. rewrite str_length_app in Hn. lia.
    + rewrite IH by (simpl in Hn; lia).
      rewrite str_app_assoc. reflexivity.
Qed.

(** X3.  Splitting a text at a non-empty separator loses nothing: the
    pieces joined by the separator give the text back, and there is always
    at least one piece (the empty text gives one empty piece). *)
Theorem join_split_round_trip (sep s : string) :
  sep <> "" ->
  str_join sep (str_split sep s) = s /\ 1 <= length (str_split sep s).
Proof.
  intros Hsep. split.
  - unfold str_split. apply (join_split_from Hsep (n := String.length s)).
    lia.
  - unfold str_split.
    pose proof (split_from_nonempty sep 0 "" s) as H.
    destruct (split_from sep 0 "" s); [congruence | simpl; lia].
Qed.

Lemma join_split_round_trip_witness :
  str_join ", " (str_split ", " "H2CO, C18O") = "H2CO, C18O" /\
  1 <= length (str_split ", " "H2CO, C18O").
Proof. apply join_split_round_trip. discriminate. Defined.

Example str_split_names :
  str_split ", " "H2CO, C18O, SiO" = ["H2CO"; "C18O"; "SiO"].
Proof. reflexivity. Qed.

Example str_split_empty : str_split ", " "" = [""].
Proof. reflexivity. Qed.

Example str_split_trailing : str_split ", " "H2CO, " = ["H2CO"; ""].
Proof. reflexivity. Qed.

Example str_split_no_space : str_split ", " "H2CO,C18O" = ["H2CO,C18O"].
Proof. reflexivity. Qed.

(** A piece without a comma ends at the next separator. *)
Lemma split_from_comma_free x piece rest :
  contains_char "," x = false ->
  split_from ", " 0 piece (x ++ ", " ++ rest) =
  (piece ++ x) :: split_from ", " 0 "" rest.
Proof.
  revert piece; induction x as [|c x IH]; intros piece Hx.
  - simpl. rewrite str_app_nil_r.
    replace (prefix "" rest) with true by (destruct rest; reflexivity).
    reflexivity.
  - cbn [contains_char] in Hx. apply orb_false_iff in Hx.
    destruct Hx as [Hc Hx]. cbn [append split_from prefix].
    destruct (ascii_dec "," c) as [E|_];
      [subst c; rewrite Ascii.eqb_refl in Hc; discriminate|].
    rewrite (IH _ Hx), str_app_assoc. reflexivity.
Qed.

Lemma split_from_comma_free_last x piece :
  contains_char "," x = false ->
  split_from ", " 0 piece x = [piece ++ x].
Proof.
  revert piece; induction x as [|c x IH]; intros piece Hx.
  - simpl. rewrite str_app_nil_r. reflexivity.
  - cbn [contains_char] in Hx. apply orb_false_iff in Hx.
    destruct Hx as [Hc Hx]. cbn [split_from prefix].
    destruct (ascii_dec "," c) as [E|_];
      [subst c; rewrite Ascii.eqb_refl in Hc; discriminate|].
    rewrite (IH _ Hx), str_app_assoc. reflexivity.
Qed.

(** X4.  A non-empty list of entries without commas, written with [", "]
    between the entries, is read back entry by entry. *)
Theorem split_join_comma_free (l : list string) :
  l <> [] ->
  Forall (fun x => contains_char "," x = false) l ->
  str_split ", " (str_join ", " l) = l.
Proof.
  intros Hl Hall. unfold str_split.
  induction Hall as [|x l Hx Hall IH]; [congruence|].
  destruct l as [|y l].
  - simpl. apply (split_from_comma_free_last x "" Hx).
  - rewrite str_join_cons by discriminate.
    rewrite split_from_comma_free by exact Hx.
    rewrite IH by discriminate. reflexivity.
Qed.

Lemma split_join_comma_free_witness :
  str_split ", " (str_join ", " ["H2CO"; "C18O"]) = ["H2CO"; "C18O"].
Proof.
  apply split_join_comma_free; [discriminate|].
  repeat constructor.
Defined.

End TextFacts.

(** ** Baseline lists as sets of channel ranges *)

Section BaselineSets.
Context {num : Type} {NU : Numeric num} {LIB : CubeLibrary num}.

Lemma baseline_selects_same (nchan : nat) (b1 b2 : list (Z * Z)) i :
  (forall p, In p b1 <-> In p b2) ->
  baseline_selects nchan b1 i = baseline_selects nchan b2 i.
Proof.
  intros Hsame. apply eq_true_iff_eq. unfold baseline_selects.
  rewrite !existsb_exists. split; intros [p [Hin Hp]]; exists p;
    (split; [apply Hsame; exact Hin | exact Hp]).
Qed.

Lemma baseline_selects_none (nchan : nat) (baseline : list (Z * Z)) i :
  (forall low high,
     In (low, high) baseline ->
     (slice_bound (Z.of_nat nchan) high
      <= slice_bound (Z.of_nat nchan) low)%Z) ->
  baseline_selects nchan baseline i = false.
Proof.
  intros Hempty. destruct (baseline_selects nchan baseline i) eqn:E;
    [|reflexivity].
  apply baseline_selects_spec in E. destruct E as (low & high & Hin & Hs).
  specialize (Hempty _ _ Hin). lia.
Qed.

(** X5.  The channel mask and the noise map of a baseline list depend only
    on which pairs the list holds: listing the pairs in another order, or
    a pair twice, changes neither. *)
Theorem baseline_order_irrelevant (cube : SpectralCube num)
  (b1 b2 : list (Z * Z)) :
  (forall p, In p b1 <-> In p b2) ->
  (forall nchan, baseline_mask nchan b1 = baseline_mask nchan b2) /\
  baseline_noise cube b1 = baseline_noise cube b2.
Proof.
  intros Hsame.
  assert (Hmask : forall nchan,
             baseline_mask nchan b1 = baseline_mask nchan b2).
  { intros nchan. apply nth_error_ext. intros i.
    rewrite !nth_error_baseline_mask.
    rewrite (baseline_selects_same nchan b1 b2 i Hsame). reflexivity. }
  split; [exact Hmask|].
  unfold baseline_noise. rewrite Hmask. reflexivity.
Qed.

(** X6.  A pair whose adjusted bounds are reversed or equal, such as
    [(14, 9)] or a pair past the last channel, selects no channel and is no
    error; when every pair of the list is such a pair, and so for the empty
    list, the mask is all false and no voxel enters the noise estimate. *)
Theorem empty_ranges_select_nothing (cube : SpectralCube num)
  (baseline : list (Z * Z)) :
  (forall low high,
     In (low, high) baseline ->
     (slice_bound (Z.of_nat (length (cube_data cube))) high
      <= slice_bound (Z.of_nat (length (cube_data cube))) low)%Z) ->
  baseline_mask (length (cube_data cube)) baseline =
    repeat false (length (cube_data cube)) /\
  forall y x k d,
    nth_error (noise_samples cube baseline y x) k <> Some (Some d).
Proof.
  intros Hempty. split.
  - apply nth_error_ext. intros i. rewrite nth_error_baseline_mask.
    rewrite (baseline_selects_none _ _ i Hempty).
    destruct (i <? length (cube_data cube)) eqn:Hi.
    + apply Nat.ltb_lt in Hi. symmetry. apply nth_error_repeat, Hi.
    + apply Nat.ltb_ge in Hi. symmetry. apply nth_error_None.
      rewrite repeat_length. exact Hi.
  - intros y x k d H. apply noise_sample_included in H.
    destruct H as [_ H]. rewrite (baseline_selects_none _ _ k Hempty) in H.
    discriminate.
Qed.

End BaselineSets.

(** ** Counting and batching the files of a run *)


Section RunCounts.
Context {num : Type} {NU : Numeric num} {LIB : CubeLibrary num}.

Variable cube : SpectralCube num.
Variables peak_velocity centroid_map max_map noisemap : list (list num).
Variables signal_mask_limit spatial_mask_limit : num.
Variable target : string.
Variable spatial_mask : list (list bool).
Variable width_map : list (list num).

Local Abbreviation run_lines my_line_list my_line_widths my_line_names :=
  (cubelinemoment_multiline cube peak_velocity centroid_map max_map noisemap
     signal_mask_limit spatial_mask_limit my_line_list my_line_widths
     my_line_names target spatial_mask width_map).




End RunCounts.

(** ** Paths determine the line, the order and the kind of file *)

Section PathFacts.
Local Open Scope string_scope.

Lemma list_ascii_of_string_app (a b : string) :
  list_ascii_of_string (a ++ b) =
  (list_ascii_of_string a ++ list_ascii_of_string b)%list.
Proof. induction a as [|c a IH]; simpl; [|rewrite IH]; reflexivity. Qed.

Lemma list_ascii_of_string_inj (a b : string) :
  list_ascii_of_string a = list_ascii_of_string b -> a = b.
Proof.
  intros H. rewrite <- (string_of_list_ascii_of_string a),
    <- (string_of_list_ascii_of_string b), H. reflexivity.
Qed.

(** The reversed characters of a text that ends in a given suffix. *)
Lemma rev_chars_app (a suffix : string) :
  rev (list_ascii_of_string (a ++ suffix)) =
  (rev (list_ascii_of_string suffix) ++ rev (list_ascii_of_string a))%list.
Proof. rewrite list_ascii_of_string_app. apply rev_app_distr. Qed.

Lemma rev_chars_inj (a b : string) :
  rev (list_ascii_of_string a) = rev (list_ascii_of_string b) -> a = b.
Proof.
  intros H. apply list_ascii_of_string_inj.
  rewrite <- (rev_involutive (list_ascii_of_string a)),
    <- (rev_involutive (list_ascii_of_string b)), H. reflexivity.
Qed.

(** For one target, the path tells the order, the line name and the
    extension. *)
Lemma moment_path_inj (X X' : nat) (target L L' e e' : string) :
  X < 3 -> X' < 3 ->
  In e [".fits"; ".png"] -> In e' [".fits"; ".png"] ->
  moment_path X target L e = moment_path X' target L' e' ->
  X = X' /\ L = L' /\ e = e'.
Proof.
  intros HX HX' He He' H.
  assert (HXX : X = X').
  { destruct X as [|[|[|X]]]; try lia; destruct X' as [|[|[|X']]]; try lia;
      try reflexivity; discriminate H. }
  subst X'. split; [reflexivity|].
  unfold moment_path in H.
  apply (f_equal (fun s => rev (list_ascii_of_string s))) in H.
  rewrite <- !str_app_assoc in H.
  rewrite (str_app_assoc _ L), (str_app_assoc _ L') in H.
  rewrite !rev_chars_app in H.
  assert (Hs : exists s, str_of_nat X = String s "").
  { destruct X as [|[|[|X]]]; try lia; eexists; reflexivity. }
  destruct Hs as [s Hs]. rewrite Hs in H.
  simpl in He, He'.
  destruct He as [<-|[<-|[]]]; destruct He' as [<-|[<-|[]]];
    cbn [append list_ascii_of_string rev app] in H;
    try discriminate H.
  - injection H as H. apply app_inv_tail, rev_chars_inj in H.
    split; [exact H | reflexivity].
  - injection H as H. apply app_inv_tail, rev_chars_inj in H.
    split; [exact H | reflexivity].
Qed.

End PathFacts.

(** ** The files a run leaves on disk *)



Lemma map_name_zip3 {B C : Type} (a : list string) (b : list B)
  (c : list C) :
  length a = length b -> length a = length c ->
  map (fun line => fst (fst line)) (zip3 a b c) = a.
Proof.
  revert b c; induction a as [|x a IH]; intros [|y b] [|z c] Hb Hc;
    simpl in *; try discriminate; [reflexivity|].
  rewrite IH by lia. reflexivity.
Qed.

Section DiskFacts.
Context {num : Type} {NU : Numeric num} {LIB : CubeLibrary num}.
Local Open Scope string_scope.

(** A file of a line is the FITS image or the PNG preview of one of the
    three orders. *)
Lemma in_line_outputs (target L : string) (msubcube : SpectralCube num)
  (o : Output num) :
  In o (line_outputs target L msubcube) <->
  exists X,
    X < 3 /\
    (o = FitsFile (moment_path X target L ".fits")
                  (moment_image X msubcube) \/
     o = PngFile (moment_path X target L ".png")
                 (moment_image X msubcube)).
Proof.
  split.
  - intros H. simpl in H.
    destruct H as [<-|[<-|[<-|[<-|[<-|[<-|[]]]]]]];
      [exists 0 | exists 0 | exists 1 | exists 1 | exists 2 | exists 2];
      (split; [lia | auto]).
  - intros (X & HX & H).
    destruct X as [|[|[|X]]]; try lia; destruct H as [->| ->]; simpl; auto 10.
Qed.

Lemma line_output_path (target L : string) (msubcube : SpectralCube num)
  (o : Output num) :
  In o (line_outputs target L msubcube) ->
  exists X e,
    X < 3 /\ In e [".fits"; ".png"] /\
    output_path o = moment_path X target L e.
Proof.
  intros H. apply in_line_outputs in H. destruct H as (X & HX & [->| ->]).
  - exists X, ".fits". simpl. auto.
  - exists X, ".png". simpl. auto.
Qed.

Lemma NoDup_line_paths (target L : string) (msubcube : SpectralCube num) :
  NoDup (map output_path (line_outputs target L msubcube)).
Proof.
  simpl.
  repeat (constructor;
          [simpl; intros H;
           repeat (destruct H as [H|H];
                   [apply moment_path_inj in H;
                    [destruct H as (HX & _ & He); try lia; discriminate He
                    | lia | lia | simpl; auto | simpl; auto]|]);
           exact H|]).
  constructor.
Qed.

Lemma NoDup_lines_paths (target : string)
  (msubcube_of : string * num * num -> SpectralCube num)
  (lines : list (string * num * num)) :
  NoDup (map (fun line => fst (fst line)) lines) ->
  NoDup
    (map output_path
       (flat_map
          (fun line => line_outputs target (fst (fst line))
                         (msubcube_of line))
          lines)).
Proof.
  induction lines as [|line lines IH]; intros Hnd.
  - constructor.
  - cbn [flat_map map] in *. rewrite map_app.
    apply NoDup_cons_iff in Hnd. destruct Hnd as [Hnew Hnd].
    apply NoDup_app.
    + apply NoDup_line_paths.
    + apply IH, Hnd.
    + intros p Hp Hp'. apply in_map_iff in Hp, Hp'.
      destruct Hp as (o & <- & Ho). destruct Hp' as (o' & Heq & Ho').
      apply in_flat_map in Ho'. destruct Ho' as (line' & Hin' & Ho').
      apply line_output_path in Ho, Ho'.
      destruct Ho as (X & e & HX & He & Hpath).
      destruct Ho' as (X' & e' & HX' & He' & Hpath').
      rewrite Hpath, Hpath' in Heq.
      apply moment_path_inj in Heq; try assumption.
      destruct Heq as (_ & HL & _).
      apply Hnew. rewrite <- HL.
      apply (in_map (fun l => fst (fst l))) in Hin'. exact Hin'.
Qed.

Variable cube : SpectralCube num.
Variables peak_velocity centroid_map max_map noisemap : list (list num).
Variables signal_mask_limit spatial_mask_limit : num.
Variables my_line_list my_line_widths : list num.
Variable my_line_names : list string.
Variable target : string.
Variable spatial_mask : list (list bool).
Variable width_map : list (list num).

Local Abbreviation run :=
  (cubelinemoment_multiline cube peak_velocity centroid_map max_map noisemap
     signal_mask_limit spatial_mask_limit my_line_list my_line_widths
     my_line_names target spatial_mask width_map).

Local Abbreviation msubcube_of line_freq line_width :=
  (line_msubcube cube peak_velocity centroid_map max_map noisemap
     signal_mask_limit spatial_mask width_map line_freq line_width).

(** X9.  When the lists agree in length and no line name occurs twice, no
    two files of a run share a path: the run overwrites none of its own
    files. *)
Theorem distinct_names_distinct_paths :
  lengths_differ my_line_list my_line_widths my_line_names = false ->
  NoDup my_line_names ->
  NoDup (map output_path (snd (run []))).
Proof.
  intros Hd Hnd. rewrite multiline_run, Hd. simpl snd.
  apply lengths_differ_false in Hd. destruct Hd as [Hl Hw].
  apply (NoDup_lines_paths target
           (fun line => msubcube_of (snd (fst line)) (snd line))).
  rewrite map_name_zip3 by assumption. exact Hnd.
Qed.


End DiskFacts.

(** ** [main] from the texts of the parameter file *)

Section MainTextFacts.
Context {num : Type} {NU : Numeric num} {LIB : CubeLibrary num}.
Variable float : string -> Error + num.

Lemma length_floats (l : list string) (vs : list num) :
  floats float l = inr vs -> length vs = length l.
Proof.
  revert vs; induction l as [|s l IH]; intros vs H; simpl in H.
  - injection H as <-. reflexivity.
  - destruct (float s) as [e|v]; [discriminate|].
    destruct (floats float l) as [e|vs']; [discriminate|].
    injection H as <-. simpl. rewrite (IH vs' eq_refl). reflexivity.
Qed.

(** X11.  [main] either raises with no file written, or returns after
    writing six files for every entry of the text of line names; the text
    always has at least one entry (the empty text names one line with the
    empty name), so a run that returns has written at least six files. *)
Theorem main_text_outcome (f : ParamFile) (written : list (Output num)) :
  (exists e, main_text float f written = (inl e, written))
  \/
  (exists new,
     main_text float f written = (inr tt, written ++ new) /\
     length new = 6 * length (str_split ", " (f_my_line_names f)) /\
     6 <= length new).
Proof.
  unfold main_text, read_params.
  destruct (floats float (str_split ", " (f_my_line_list f))) as [e|l];
    [left; exists e; reflexivity|].
  destruct (floats float (str_split ", " (f_my_line_widths f))) as [e|w];
    [left; exists e; reflexivity|].
  unfold main. rewrite multiline_run.
  cbn [p_my_line_list p_my_line_widths p_my_line_names].
  destruct (lengths_differ l w (str_split ", " (f_my_line_names f))) eqn:Hd;
    [left; exists length_error; reflexivity|].
  right. eexists. split; [reflexivity|].
  apply lengths_differ_false in Hd. destruct Hd as [Hl Hw].
  rewrite (flat_map_constant_length (c := 6)) by (intros; reflexivity).
  rewrite length_zip3 by assumption.
  pose proof (split_from_nonempty ", " 0 "" (f_my_line_names f)) as Hne.
  unfold str_split.
  destruct (split_from ", " 0 "" (f_my_line_names f));
    [congruence | simpl; lia].
Qed.

(** X12.  When the numbers of the two numeric texts convert but the three
    texts do not hold the same number of entries, [main] raises the length
    error of the extraction and no file is written. *)
Theorem main_text_entry_counts_differ (f : ParamFile)
  (written : list (Output num)) (l w : list num) :
  floats float (str_split ", " (f_my_line_list f)) = inr l ->
  floats float (str_split ", " (f_my_line_widths f)) = inr w ->
  length (str_split ", " (f_my_line_names f))
    <> length (str_split ", " (f_my_line_list f))
  \/ length (str_split ", " (f_my_line_names f))
    <> length (str_split ", " (f_my_line_widths f)) ->
  main_text float f written = (inl length_error, written).
Proof.
  intros Hl Hw Hdiff. unfold main_text, read_params. rewrite Hl, Hw.
  unfold main. rewrite multiline_run.
  cbn [p_my_line_list p_my_line_widths p_my_line_names].
  destruct (lengths_differ l w (str_split ", " (f_my_line_names f))) eqn:Hd;
    [reflexivity|].
  apply lengths_differ_false in Hd. destruct Hd as [H1 H2].
  rewrite (length_floats _ Hl) in H1. rewrite (length_floats _ Hw) in H2.
  destruct Hdiff as [Hdiff|Hdiff]; contradiction.
Qed.

End MainTextFacts.

(** ** Limits, widths and the sign of the noise, over the reals *)

Section RealMasks.
Context {LIB : CubeLibrary R}.
Local Open Scope R_scope.

Variable cube : SpectralCube R.
Variables peak_velocity centroid_map max_map noisemap : list (list R).
Variable spatial_mask : list (list bool).
Variable width_map : list (list R).

Local Abbreviation msubcube_at limit line_freq line_width :=
  (line_msubcube cube peak_velocity centroid_map max_map noisemap limit
     spatial_mask width_map line_freq line_width).

(** X13.  With a non-negative signal limit and a noise map without
    negative entries, every voxel kept in the masked subcube of a line has
    a strictly positive brightness: the moments are weighted by positive
    intensities only. *)
Theorem kept_voxels_are_positive (signal_mask_limit line_freq line_width : R)
  (k y x : nat) (d : R) :
  0 <= signal_mask_limit ->
  (forall y' x' n, lookup2 noisemap y' x' = Some n -> 0 <= n) ->
  voxel (msubcube_at signal_mask_limit line_freq line_width) k y x = Some d ->
  0 < d.
Proof.
  intros Hlim Hnoise Hv. apply voxel_line_msubcube in Hv.
  destruct Hv as (Hsub & _ & _ & (d' & n & Hd & Hn & Hgt) & _).
  apply voxel_Some_data in Hsub. rewrite Hsub in Hd. injection Hd as <-.
  cbv [ngt nmul R_numeric] in Hgt. apply Rltb_true_iff in Hgt.
  specialize (Hnoise _ _ _ Hn). nra.
Qed.

(** X14.  Raising the signal limit only removes voxels: with a noise map
    without negative entries, a voxel kept under a limit is kept, with the
    same value, under every smaller limit. *)
Theorem raising_signal_limit_only_removes
  (limit limit' line_freq line_width : R) (k y x : nat) (d : R) :
  limit <= limit' ->
  (forall y' x' n, lookup2 noisemap y' x' = Some n -> 0 <= n) ->
  voxel (msubcube_at limit' line_freq line_width) k y x = Some d ->
  voxel (msubcube_at limit line_freq line_width) k y x = Some d.
Proof.
  intros Hle Hnoise Hv. apply voxel_line_msubcube in Hv.
  apply voxel_line_msubcube.
  destruct Hv as (Hsub & Hwin & Hsp & (d' & n & Hd & Hn & Hgt) & Hw).
  repeat split; try assumption.
  exists d', n. repeat split; try assumption.
  cbv [ngt nmul R_numeric] in *. apply Rltb_true_iff in Hgt.
  apply Rltb_true_iff. specialize (Hnoise _ _ _ Hn). nra.
Qed.

(** X15.  A line width that is zero or negative masks every voxel of the
    line: the velocity window [|peak_velocity - v| < line_width] is
    empty. *)
Theorem nonpositive_width_masks_all
  (signal_mask_limit line_freq line_width : R) (k y x : nat) :
  line_width <= 0 ->
  voxel (msubcube_at signal_mask_limit line_freq line_width) k y x = None.
Proof.
  intros Hw.
  destruct (voxel (msubcube_at signal_mask_limit line_freq line_width)
              k y x) as [d|] eqn:Hv; [|reflexivity].
  apply voxel_line_msubcube in Hv.
  destruct Hv as (_ & (v & pv & _ & _ & _ & Hlt) & _).
  cbv [nlt nabs nsub R_numeric] in Hlt. apply Rltb_true_iff in Hlt.
  pose proof (Rabs_pos (pv - v)). lra.
Qed.

End RealMasks.

Section RealSetup.
Context {LIB : CubeLibrary R}.
Local Open Scope R_scope.

(** X16.  Raising the spatial limit only removes pixels from the spatial
    mask of the setup, for a library whose standard deviation is never
    negative. *)
Theorem raising_spatial_limit_only_removes
  (cube spatialmaskcube : SpectralCube R) (vz bf wf lw : R)
  (noisemapbright_baseline noisemap_baseline : list (Z * Z))
  (limit limit' : R) (y x : nat) :
  (forall samples, 0 <= los_std samples) ->
  limit <= limit' ->
  lookup2 (s_spatial_mask
             (cubelinemoment_setup cube spatialmaskcube vz bf wf lw
                noisemapbright_baseline noisemap_baseline limit')) y x
    = Some true ->
  lookup2 (s_spatial_mask
             (cubelinemoment_setup cube spatialmaskcube vz bf wf lw
                noisemapbright_baseline noisemap_baseline limit)) y x
    = Some true.
Proof.
  intros Hstd Hle H. apply spatial_mask_true in H. apply spatial_mask_true.
  destruct H as (a & nb & Ha & Hnb & Hgt). exists a, nb.
  repeat split; try assumption.
  cbv [ngt nmul R_numeric] in *. apply Rltb_true_iff in Hgt.
  apply Rltb_true_iff.
  assert (Hpos : 0 <= nb).
  { unfold baseline_noise, cube_std in Hnb.
    rewrite lookup2_reduce_los in Hnb.
    destruct (_ && _) in Hnb; [|discriminate].
    injection Hnb as <-. apply Hstd. }
  nra.
Qed.

End RealSetup.

(** ** Further worked runs *)

Section MoreExamples.
Local Open Scope R_scope.
Local Open Scope string_scope.

Example decimal_frequency : decimal "218.222192" = inr (218222192 / 10 ^ 6).
Proof. reflexivity. Qed.

Example decimal_refuses_empty :
  decimal "" = inl (ValueError "could not convert string to float: ").
Proof. reflexivity. Qed.

Example main_text_returns : fst (main_text decimal ex_file []) = inr tt.
Proof. reflexivity. Qed.

Lemma baseline_order_irrelevant_witness :
  (forall nchan,
     baseline_mask nchan [(0, 1); (2, 4)]%Z =
     baseline_mask nchan [(2, 4); (0, 1); (2, 4)]%Z) /\
  baseline_noise ex_cube4 [(0, 1); (2, 4)]%Z =
  baseline_noise ex_cube4 [(2, 4); (0, 1); (2, 4)]%Z.
Proof.
  apply baseline_order_irrelevant.
  intros p. simpl. tauto.
Defined.

Lemma empty_ranges_select_nothing_witness :
  baseline_mask (length (cube_data ex_cube4)) [(3, 1); (7, 9)]%Z =
    repeat false (length (cube_data ex_cube4)) /\
  forall y x k d,
    nth_error (noise_samples ex_cube4 [(3, 1); (7, 9)]%Z y x) k
    <> Some (Some d).
Proof.
  apply empty_ranges_select_nothing.
  intros low high [H|[H|[]]]; injection H as <- <-;
    unfold slice_bound; simpl; lia.
Defined.


Lemma distinct_names_distinct_paths_witness :
  NoDup
    (map output_path
       (snd (cubelinemoment_multiline ex_cube ex_peak_velocity
               ex_centroid_map ex_max_map ex_noisemap 3 3 [1; 1] [20; 10]
               ["H2CO"; "C18O"] "NGC253" ex_spatial_mask ex_width_map
               []))).
Proof.
  apply (@distinct_names_distinct_paths R R_numeric R_library ex_cube
           ex_peak_velocity ex_centroid_map ex_max_map ex_noisemap 3 3
           [1; 1] [20; 10] ["H2CO"; "C18O"] "NGC253" ex_spatial_mask
           ex_width_map).
  - reflexivity.
  - constructor; [simpl; intros [H|[]]; discriminate H|].
    constructor; [simpl; tauto | constructor].
Defined.


Lemma main_text_entry_counts_differ_witness :
  main_text decimal ex_file_mismatched [] = (inl length_error, []).
Proof.
  eapply (@main_text_entry_counts_differ R R_numeric R_library decimal
            ex_file_mismatched []).
  - reflexivity.
  - reflexivity.
  - left. simpl. discriminate.
Defined.

Lemma ex_noisemap_nonneg y x n :
  lookup2 ex_noisemap y x = Some n -> (0 <= n)%R.
Proof.
  unfold ex_noisemap, lookup2.
  destruct y as [|[|y]]; simpl; try discriminate;
    destruct x as [|[|x]]; simpl; try discriminate.
  intros H. injection H as <-. lra.
Qed.

Lemma ex_voxel : voxel ex_msubcube 0 0 0 = Some 1%R.
Proof. rewrite ex_msubcube_eq. reflexivity. Qed.

Lemma kept_voxels_are_positive_witness : (0 < 1)%R.
Proof.
  apply (@kept_voxels_are_positive R_library ex_cube ex_peak_velocity
           ex_centroid_map ex_max_map ex_noisemap ex_spatial_mask
           ex_width_map 3 1 20 0%nat 0%nat 0%nat 1).
  - lra.
  - apply ex_noisemap_nonneg.
  - apply ex_voxel.
Defined.

Lemma raising_signal_limit_only_removes_witness :
  voxel (line_msubcube ex_cube ex_peak_velocity ex_centroid_map ex_max_map
           ex_noisemap 2 ex_spatial_mask ex_width_map 1 20) 0 0 0
  = Some 1%R.
Proof.
  apply (@raising_signal_limit_only_removes R_library ex_cube
           ex_peak_velocity ex_centroid_map ex_max_map ex_noisemap
           ex_spatial_mask ex_width_map 2 3 1 20 0%nat 0%nat 0%nat 1).
  - lra.
  - apply ex_noisemap_nonneg.
  - apply ex_voxel.
Defined.

Lemma nonpositive_width_masks_all_witness :
  voxel (line_msubcube ex_cube ex_peak_velocity ex_centroid_map ex_max_map
           ex_noisemap 3 ex_spatial_mask ex_width_map 1 0) 0 0 0
  = None.
Proof.
  apply (@nonpositive_width_masks_all R_library ex_cube ex_peak_velocity
           ex_centroid_map ex_max_map ex_noisemap ex_spatial_mask
           ex_width_map 3 1 0 0%nat 0%nat 0%nat).
  lra.
Defined.

End MoreExamples.

(** ** The spatial mask of the example setup *)

Section SetupExample.
Local Open Scope R_scope.

Lemma R_los_std_nonneg (samples : list (option R)) : 0 <= R_los_std samples.
Proof. unfold R_los_std. apply sqrt_pos. Qed.

Ltac solve_abs :=
  unfold Rabs;
  repeat match goal with
         | |- context [Rcase_abs ?x] => destruct (Rcase_abs x)
         end;
  lra.

(** The brightest-line slab of the example cube about [vz = 0] holds both
    channels. *)
Lemma ex_brightest_slab_eq :
  brightest_slab ex_cube 0 1 20 =
  mkCube [0; 10] [[[1]]; [[1]]] [[[true]]; [[true]]].
Proof.
  unfold brightest_slab.
  cbv [with_spectral_unit spectral_slab R_library nsub nadd R_numeric].
  unfold R_spectral_slab, R_with_spectral_unit, ex_cube.
  cbn [spectral_axis cube_data cube_mask map closest_spectral_channel
       closest_from].
  rewrite optical_velocity_rest, optical_velocity_10.
  repeat match goal with
         | |- context [Rltb ?a ?b] =>
             first [ rewrite (@Rltb_true a b) by solve_abs
                   | rewrite (@Rltb_false a b) by solve_abs ]
         end.
  reflexivity.
Qed.

(** Its peak amplitude is 1 and the noise of the example cube over both
    channels is 0, so the pixel is in the spatial mask at the limit 3. *)
Lemma ex_setup_spatial_mask :
  lookup2 (s_spatial_mask
             (cubelinemoment_setup ex_cube ex_cube 0 1 1 20 [(0, 2)%Z]
                [(0, 2)%Z] 3)) 0 0 = Some true.
Proof.
  apply spatial_mask_true. rewrite ex_brightest_slab_eq.
  exists (Rmax 1 1), (R_los_std [Some 1; Some 1]).
  split; [reflexivity|]. split; [reflexivity|].
  cbv [ngt nmul R_numeric]. apply Rltb_true.
  assert (Hstd : R_los_std [Some 1; Some 1] = 0).
  { unfold R_los_std, Rmean, Rsum.
    cbn [present map fold_left length INR].
    replace ((0 + (1 - (0 + 1 + 1) / (1 + 1)) ^ 2
              + (1 - (0 + 1 + 1) / (1 + 1)) ^ 2) / (1 + 1)) with 0
      by field.
    apply sqrt_0. }
  rewrite Hstd, Rmax_left by lra. lra.
Qed.

Lemma raising_spatial_limit_only_removes_witness :
  lookup2 (s_spatial_mask
             (cubelinemoment_setup ex_cube ex_cube 0 1 1 20 [(0, 2)%Z]
                [(0, 2)%Z] 2)) 0 0 = Some true.
Proof.
  apply (@raising_spatial_limit_only_removes R_library ex_cube ex_cube
           0 1 1 20 [(0, 2)%Z] [(0, 2)%Z] 2 3 0%nat 0%nat).
  - apply R_los_std_nonneg.
  - lra.
  - apply ex_setup_spatial_mask.
Defined.

End SetupExample.
